(** * Schema compiler and model registry of nomos ([nomos/utils/schema_loader.py])

    A shallow embedding of [SchemaRegistry]: the JSON-schema compiler
    ([_json_schema_to_pydantic], [_json_type_to_python]), the two loaders
    ([_load_json_schema], [_load_python_schema]) and the registry API
    ([load_schema], [get_model]), followed by the properties the
    specification states about them. *)

From Stdlib Require Import ZArith NArith String Ascii List Bool Lia.
From stdpp Require Import base option gmap strings list fin_maps.
Import ListNotations.
Local Open Scope string_scope.
Set Warnings "-register-all".

(** ** Python values *)

(** A [float] as [json.load] produces it.  Only whether it is zero is ever
    observed here (the truthiness of a description). *)
Inductive pyfloat : Type :=
  | FNan
  | FInf (negative : bool)
  | FFinite (negative : bool) (mantissa : N) (exponent : Z).

(** The value [json.load] returns.  An object is kept as its members in
    document order.  [json.load] builds the dict from them with
    [dict(pairs)], so a name written more than once stands for its last
    value at its first place: [PyDict.get] and [py_items] read it so. *)
Inductive json : Type :=
  | JNull
  | JBool (b : bool)
  | JInt (z : Z)
  | JFloat (f : pyfloat)
  | JStr (s : string)
  | JArr (l : list json)
  | JObj (items : list (string * json)).

(** Exceptions.  Those the source raises itself carry their message; those
    raised by built-in operations on a value of the wrong kind carry none.
    [DuplicateFieldError] is the specification's name for the error of the
    type factory; no source raises it.  [External] stands for what the
    file system, [json.load] or an executed module raise.  [OutOfFuel] is
    not a Python exception: it ends the call budget of [type_within] and
    is never returned by the compiler ([_json_type_to_python_Err]); the
    recursion limit of the interpreter is not modelled. *)
Inductive py_exn : Type :=
  | FileNotFoundError (msg : string)
  | ValueError (msg : string)
  | ImportError (msg : string)
  | TypeError
  | AttributeError
  | KeyError (key : string)
  | OutOfFuel
  | DuplicateFieldError (field : string)
  | External (what : string).

Inductive result (A : Type) : Type :=
  | Ok (a : A)
  | Err (e : py_exn).
Arguments Ok {A} a.
Arguments Err {A} e.

#[global] Instance result_ret : MRet result := fun A a => Ok a.
#[global] Instance result_bind : MBind result := fun A B f r =>
  match r with
  | Ok a => f a
  | Err e => Err e
  end.
#[global] Instance result_fmap : FMap result := fun A B f r =>
  match r with
  | Ok a => Ok (f a)
  | Err e => Err e
  end.

(** [for x in xs: acc = body(acc, x)], stopping at the first exception. *)
Fixpoint foldM {A B : Type} (body : A -> B -> result A) (xs : list B) (acc : A)
  : result A :=
  match xs with
  | [] => Ok acc
  | x :: xs' => acc' ← body acc x; foldM body xs' acc'
  end.

(** *** dict *)

Module PyDict.

(** [d[k]] when the members of [d] are read in order: the last value
    given to [k]. *)
Fixpoint get {V : Type} (d : list (string * V)) (k : string) : option V :=
  match d with
  | [] => None
  | (k', v) :: d' =>
      match get d' k with
      | Some v' => Some v'
      | None => if String.eqb k' k then Some v else None
      end
  end.

Definition has {V : Type} (d : list (string * V)) (k : string) : bool :=
  match get d k with Some _ => true | None => false end.

(** [d[k] = v]: an existing key keeps its place, a new key goes last. *)
Fixpoint set {V : Type} (d : list (string * V)) (k : string) (v : V)
  : list (string * V) :=
  match d with
  | [] => [(k, v)]
  | (k', v') :: d' =>
      if String.eqb k' k then (k', v) :: d' else (k', v') :: set d' k v
  end.

Definition keys {V : Type} (d : list (string * V)) : list string := map fst d.

(** [dict(pairs)]: every key once, at its first place, with its last
    value. *)
Definition of_pairs {V : Type} (pairs : list (string * V)) : list (string * V) :=
  fold_left (fun d kv => set d (fst kv) (snd kv)) pairs [].

End PyDict.

(** *** Operators on parsed values *)

(** [x == s] for a string literal [s]. *)
Definition json_is_str (x : json) (s : string) : bool :=
  match x with
  | JStr s' => String.eqb s' s
  | _ => false
  end.

Fixpoint is_prefix (p s : string) : bool :=
  match p, s with
  | EmptyString, _ => true
  | String a p', String b s' => if Ascii.eqb a b then is_prefix p' s' else false
  | String _ _, EmptyString => false
  end.

(** [p in s] on two strings. *)
Fixpoint is_substring (p s : string) : bool :=
  is_prefix p s ||
  match s with
  | EmptyString => false
  | String _ s' => is_substring p s'
  end.

(** [k in c] for a string [k]: key of a dict, element of a list, substring
    of a string; anything else is not a container. *)
Definition py_contains (k : string) (c : json) : result bool :=
  match c with
  | JObj d => Ok (PyDict.has d k)
  | JArr l => Ok (existsb (fun x => json_is_str x k) l)
  | JStr s => Ok (is_substring k s)
  | _ => Err TypeError
  end.

(** [c.get(k, dflt)]. *)
Definition py_get_default (c : json) (k : string) (dflt : json) : result json :=
  match c with
  | JObj d => Ok (default dflt (PyDict.get d k))
  | _ => Err AttributeError
  end.

(** [c.get(k)]. *)
Definition py_get (c : json) (k : string) : result json :=
  py_get_default c k JNull.

(** [c[k]] for a string [k]. *)
Definition py_getitem (c : json) (k : string) : result json :=
  match c with
  | JObj d =>
      match PyDict.get d k with
      | Some v => Ok v
      | None => Err (KeyError k)
      end
  | _ => Err TypeError
  end.

(** [c.items()]. *)
Definition py_items (c : json) : result (list (string * json)) :=
  match c with
  | JObj d => Ok (PyDict.of_pairs d)
  | _ => Err AttributeError
  end.

(** [bool(x)]. *)
Definition truthy (x : json) : bool :=
  match x with
  | JNull => false
  | JBool b => b
  | JInt z => negb (Z.eqb z 0)
  | JFloat (FFinite _ m _) => negb (N.eqb m 0)
  | JFloat _ => true
  | JStr s => negb (String.eqb s "")
  | JArr l => match l with [] => false | _ => true end
  | JObj d => match d with [] => false | _ => true end
  end.

(** Nesting depth of a parsed value. *)
Fixpoint depth (x : json) : nat :=
  match x with
  | JArr l => S (list_max (map depth l))
  | JObj d => S (list_max (map (fun kv => depth (snd kv)) d))
  | _ => 0
  end.

(** ** Type descriptors *)

(** The default of a field as the compiler passes it to the factory:
    [...] (no default, the value must be supplied) or [None]. *)
Inductive default_val : Type :=
  | Ellipsis
  | PyNone.

(** Resolved field types, descriptors and their fields. *)
Inductive ftype : Type :=
  | TStr
  | TFloat
  | TInt
  | TBool
  | TModel (d : descriptor)
  | TDictStrAny
  | TList (item : ftype)
  | TAny
with descriptor : Type :=
  | Descriptor (name : string) (fields : list fieldspec)
with fieldspec : Type :=
  | FieldSpec (fname : string) (ty : ftype) (required : bool)
      (dflt : option json) (description : option json).

Definition descriptor_name (d : descriptor) : string :=
  match d with Descriptor n _ => n end.
Definition descriptor_fields (d : descriptor) : list fieldspec :=
  match d with Descriptor _ fs => fs end.
Definition field_name (f : fieldspec) : string :=
  match f with FieldSpec n _ _ _ _ => n end.
Definition field_type (f : fieldspec) : ftype :=
  match f with FieldSpec _ t _ _ _ => t end.
Definition field_required (f : fieldspec) : bool :=
  match f with FieldSpec _ _ r _ _ => r end.
Definition field_default (f : fieldspec) : option json :=
  match f with FieldSpec _ _ _ d _ => d end.
Definition field_description (f : fieldspec) : option json :=
  match f with FieldSpec _ _ _ _ d => d end.

(** The field of a descriptor with a given name. *)
Definition find_field (d : descriptor) (n : string) : option fieldspec :=
  List.find (fun f => String.eqb (field_name f) n) (descriptor_fields d).

(** The [field_info] dict the compiler builds for one property:
    [{"type": .., "default": .., "description": ..}], the last key only
    when the description is truthy. *)
Record field_info : Type := FieldInfo {
  fi_type : ftype;
  fi_default : default_val;
  fi_description : option json
}.

(** First name that occurs twice in a list of names. *)
Fixpoint first_duplicate (names : list string) : option string :=
  match names with
  | [] => None
  | n :: rest =>
      if existsb (String.eqb n) rest then Some n else first_duplicate rest
  end.

Definition fieldspec_of (entry : string * field_info) : fieldspec :=
  let '(n, fi) := entry in
  match fi_default fi with
  | Ellipsis => FieldSpec n (fi_type fi) true None (fi_description fi)
  | PyNone => FieldSpec n (fi_type fi) false (Some JNull) (fi_description fi)
  end.

(** Modelled from the spec: [create_base_model] of [nomos/utils/utils.py],
    the dynamic type factory, is not among the sources.  Following the
    specification's [synthesize(type_name, field_specs)]: the descriptor
    carries the given type name and one field per entry, in order; a
    field whose default is the required sentinel is mandatory and has no
    default, any other is optional with the default given ([None], which
    is [JNull] here); two entries of the same name are rejected with
    [DuplicateFieldError]. *)
Definition create_base_model (name : string) (params : list (string * field_info))
  : result descriptor :=
  match first_duplicate (PyDict.keys params) with
  | Some n => Err (DuplicateFieldError n)
  | None => Ok (Descriptor name (map fieldspec_of params))
  end.

(** ** The JSON-schema compiler *)

(** Lines 80 to 91: the [field_info] of one property. *)
Definition property_info (self_type : json -> result ftype) (required : json)
    (prop_name : string) (prop_schema : json) : result field_info :=
  field_type ← self_type prop_schema;
  is_required ← py_contains prop_name required;
  let default_val := if is_required : bool then Ellipsis else PyNone in
  description ← py_get_default prop_schema "description" (JStr "");
  if truthy description
  then Ok (FieldInfo field_type default_val (Some description))
  else Ok (FieldInfo field_type default_val None).

(** One pass of the loop over [schema["properties"].items()], ending in
    [fields[prop_name] = field_info]. *)
Definition property_field (self_type : json -> result ftype) (required : json)
    (fields : list (string * field_info)) (prop : string * json)
  : result (list (string * field_info)) :=
  field_info ← property_info self_type required (fst prop) (snd prop);
  Ok (PyDict.set fields (fst prop) field_info).

(** The [fields] dict [_json_schema_to_pydantic] builds before it calls
    the factory. *)
Definition schema_fields (self_type : json -> result ftype) (schema : json)
  : result (list (string * field_info)) :=
  has_properties ← py_contains "properties" schema;
  if has_properties : bool then
    required ← py_get_default schema "required" (JArr []);
    properties ← py_getitem schema "properties";
    items ← py_items properties;
    foldM (property_field self_type required) items []
  else Ok [].

(** [_json_schema_to_pydantic], with [self_type] standing for the call
    [self._json_type_to_python]. *)
Definition _json_schema_to_pydantic_with (self_type : json -> result ftype)
    (schema : json) : result descriptor :=
  fields ← schema_fields self_type schema;
  create_base_model "DynamicModel" fields.

(** [_json_type_to_python], with [self_type] standing for its recursive
    call. *)
Definition _json_type_to_python_with (self_type : json -> result ftype)
    (schema : json) : result ftype :=
  json_type ← py_get schema "type";
  if json_is_str json_type "string" then Ok TStr
  else if json_is_str json_type "number" then Ok TFloat
  else if json_is_str json_type "integer" then Ok TInt
  else if json_is_str json_type "boolean" then Ok TBool
  else if json_is_str json_type "object" then
    has_properties ← py_contains "properties" schema;
    if has_properties : bool
    then TModel <$> _json_schema_to_pydantic_with self_type schema
    else Ok TDictStrAny
  else if json_is_str json_type "array" then
    has_items ← py_contains "items" schema;
    if has_items : bool then
      items ← py_getitem schema "items";
      item_type ← self_type items;
      Ok (TList item_type)
    else Ok (TList TAny)
  else Ok TAny.

(** The recursion, tied on the number of nested calls still allowed. *)
Fixpoint type_within (calls : nat) (schema : json) : result ftype :=
  match calls with
  | O => Err OutOfFuel
  | S calls' => _json_type_to_python_with (type_within calls') schema
  end.

(** A schema of depth [n] needs no more than [n + 1] nested calls (see
    [_json_type_to_python_eq]), so the functions below are total and
    [OutOfFuel] never leaves them. *)
Definition _json_type_to_python (schema : json) : result ftype :=
  type_within (S (depth schema)) schema.

Definition _json_schema_to_pydantic (schema : json) : result descriptor :=
  _json_schema_to_pydantic_with _json_type_to_python schema.

(** ** Native modules *)

(** A class object, as far as [issubclass(_, BaseModel)] and
    [_ != BaseModel] tell classes apart: pydantic's [BaseModel] itself, or
    another class, with its own [__name__]. *)
Inductive py_class : Type :=
  | BaseModel
  | UserClass (qualname : string) (derives_BaseModel : bool).

(** The value of a module attribute: a class or anything else. *)
Inductive pyobj : Type :=
  | PyType (c : py_class)
  | PyOther.

Definition issubclass_BaseModel (c : py_class) : bool :=
  match c with
  | BaseModel => true
  | UserClass _ derives => derives
  end.

Definition is_BaseModel (c : py_class) : bool :=
  match c with
  | BaseModel => true
  | UserClass _ _ => false
  end.

(** The test of line 137 on a class:
    [issubclass(attr, BaseModel) and attr != BaseModel]. *)
Definition is_model_class (c : py_class) : bool :=
  issubclass_BaseModel c && negb (is_BaseModel c).

(** ** The registry *)

(** What the registry stores under a model name: a class synthesized by
    the compiler, or a class found in a native module.  A synthesized class
    is known by its descriptor: two class objects of one shape are not
    told apart. *)
Inductive model : Type :=
  | Compiled (d : descriptor)
  | Native (c : py_class).

(** [self._schemas]. *)
Abbreviation registry := (gmap string (gmap string model)).

(** What the code reaches outside the process: [os.path], the file system,
    [json.load] on a file, and the import machinery.  [exec_module] gives the
    executed module as [dir(module)] lists it, each name with its
    [getattr]; the code of the module is taken not to call back into the
    registry. *)
Record environment : Type := Environment {
  path_join : string -> string -> string;
  path_exists : string -> bool;
  path_splitext : string -> string * string;
  read_json : string -> result json;
  has_loader : string -> string -> bool;
  exec_module : string -> string -> result (list (string * pyobj))
}.

(** A method of the registry: it may raise, and it leaves a registry. *)
Definition stateful (A : Type) : Type := registry -> result A * registry.

#[global] Instance stateful_ret : MRet stateful := fun A a self => (Ok a, self).
#[global] Instance stateful_bind : MBind stateful := fun A B f m self =>
  match m self with
  | (Ok a, self') => f a self'
  | (Err e, self') => (Err e, self')
  end.

Definition raise {A : Type} (e : py_exn) : stateful A := fun self => (Err e, self).

Definition lift {A : Type} (r : result A) : stateful A := fun self => (r, self).

(** [self._schemas[name] = models]. *)
Definition store (name : string) (models : gmap string model) : stateful unit :=
  fun self => (Ok tt, <[name := models]> self).

(** [str.lower] on ASCII letters; any other byte is kept, which makes no
    difference to the comparison with ".json" and ".py". *)
Definition lower_ascii (c : ascii) : ascii :=
  let n := nat_of_ascii c in
  if (65 <=? n)%nat && (n <=? 90)%nat then ascii_of_nat (n + 32) else c.

Fixpoint lower (s : string) : string :=
  match s with
  | EmptyString => EmptyString
  | String c s' => String (lower_ascii c) (lower s')
  end.

(** Lines 59 to 62: the model of one root property, when it is an object
    with properties. *)
Definition root_property_model (models : gmap string model) (prop : string * json)
  : result (gmap string model) :=
  let '(prop_name, prop_schema) := prop in
  prop_type ← py_get prop_schema "type";
  if json_is_str prop_type "object" then
    has_properties ← py_contains "properties" prop_schema;
    if has_properties : bool then
      prop_model ← _json_schema_to_pydantic prop_schema;
      Ok (<[prop_name := Compiled prop_model]> models)
    else Ok models
  else Ok models.

(** Lines 66 to 68: the model of one definition. *)
Definition definition_model (models : gmap string model) (def : string * json)
  : result (gmap string model) :=
  let '(def_name, def_schema) := def in
  model ← _json_schema_to_pydantic def_schema;
  Ok (<[def_name := Compiled model]> models).

(** Lines 50 to 68 of [_load_json_schema]: the [models] dict built from
    the parsed document. *)
Definition json_models (name : string) (schema_data : json)
  : result (gmap string model) :=
  let models : gmap string model := ∅ in
  has_properties ← py_contains "properties" schema_data;
  models ← (if has_properties : bool then
              model ← _json_schema_to_pydantic schema_data;
              let models := <[name := Compiled model]> models in
              properties ← py_get_default schema_data "properties" (JObj []);
              items ← py_items properties;
              foldM root_property_model items models
            else Ok models);
  has_definitions ← py_contains "definitions" schema_data;
  if has_definitions : bool then
    definitions ← py_getitem schema_data "definitions";
    items ← py_items definitions;
    foldM definition_model items models
  else Ok models.

Definition _load_json_schema (env : environment) (name file_path : string)
  : stateful (gmap string model) :=
  schema_data ← lift (read_json env file_path);
  models ← lift (json_models name schema_data);
  _ ← store name models;
  mret models.

(** Lines 135 to 138: one attribute of the executed module. *)
Definition harvest (models : gmap string model) (entry : string * pyobj)
  : gmap string model :=
  let '(attr_name, attr) := entry in
  match attr with
  | PyType c =>
      if is_model_class c then <[attr_name := Native c]> models else models
  | PyOther => models
  end.

Definition _load_python_schema (env : environment) (name file_path : string)
  : stateful (gmap string model) :=
  if has_loader env name file_path then
    namespace ← lift (exec_module env name file_path);
    let models := fold_left harvest namespace ∅ in
    _ ← store name models;
    mret models
  else raise (ImportError ("Could not load Python module: " ++ file_path)).

(** Lines 30 and 31: [if base_path: file_path = os.path.join(..)]. *)
Definition resolved_path (env : environment) (file_path : string)
    (base_path : option string) : string :=
  match base_path with
  | Some base => if String.eqb base "" then file_path
                 else path_join env base file_path
  | None => file_path
  end.

Definition load_schema (env : environment) (name file_path : string)
    (base_path : option string) : stateful (gmap string model) :=
  let file_path := resolved_path env file_path base_path in
  if path_exists env file_path then
    let file_ext := lower (snd (path_splitext env file_path)) in
    if String.eqb file_ext ".json" then _load_json_schema env name file_path
    else if String.eqb file_ext ".py" then _load_python_schema env name file_path
    else raise (ValueError ("Unsupported schema file type: " ++ file_ext))
  else raise (FileNotFoundError ("Schema file not found: " ++ file_path)).

Definition get_model (schema_name model_name : string) : stateful model :=
  fun self =>
    match self !! schema_name with
    | None => (Err (ValueError ("Schema '" ++ schema_name ++ "' not found")), self)
    | Some schema_models =>
        match schema_models !! model_name with
        | None =>
            (Err (ValueError ("Model '" ++ model_name ++ "' not found in schema '"
                              ++ schema_name ++ "'")), self)
        | Some m => (Ok m, self)
        end
    end.

(** ** Predicates used in the statements *)

(** [fields] holds exactly one entry per item, in order, each with the
    [field_info] of that item. *)
Definition fields_match (self_type : json -> result ftype) (required : json)
    (items : list (string * json)) (fields : list (string * field_info)) : Prop :=
  Forall2 (fun item entry =>
             fst entry = fst item /\
             property_info self_type required (fst item) (snd item)
             = Ok (snd entry))
          items fields.

(** A root property that gets a model of its own: an object whose [type]
    is "object" and which has a [properties] member (line 60). *)
Definition object_with_properties (prop_schema : json) : bool :=
  match prop_schema with
  | JObj pd =>
      json_is_str (default JNull (PyDict.get pd "type")) "object"
      && PyDict.has pd "properties"
  | _ => false
  end.

(** No definition of the document [d] is named [k]. *)
Definition not_a_definition (d : list (string * json)) (k : string) : Prop :=
  forall defs, PyDict.get d "definitions" = Some (JObj defs) ->
               PyDict.get defs k = None.

(** The state a call leaves: the result stored under [name] when it
    returns, the registry as it was when it raises. *)
Definition leaves (name : string) (r : result (gmap string model))
    (self : registry) : registry :=
  match r with
  | Ok models => <[name := models]> self
  | Err _ => self
  end.

(** The exceptions of the built-in operations the compiler applies to a
    value of the wrong kind. *)
Definition builtin_error (e : py_exn) : Prop := e = TypeError \/ e = AttributeError.

(** A schema in the vocabulary the compiler reads: an object whose
    [properties] member, if any, is an object of such schemas, whose
    [required] member, if any, is a list, and whose [items] member, if
    any, is such a schema. *)
Inductive well_formed : json -> Prop :=
  | WellFormed (d : list (string * json)) :
      (forall v, PyDict.get d "properties" = Some v -> exists props, v = JObj props) ->
      (forall props k p,
         PyDict.get d "properties" = Some (JObj props) ->
         PyDict.get props k = Some p -> well_formed p) ->
      (forall v, PyDict.get d "required" = Some v -> exists l, v = JArr l) ->
      (forall v, PyDict.get d "items" = Some v -> well_formed v) ->
      well_formed (JObj d).

(** A document in that vocabulary: a well-formed schema whose
    [definitions] member, if any, is an object of well-formed schemas. *)
Definition well_formed_document (d : list (string * json)) : Prop :=
  well_formed (JObj d) /\
  forall v, PyDict.get d "definitions" = Some v ->
    exists defs, v = JObj defs /\
                 forall k s, PyDict.get defs k = Some s -> well_formed s.

(** ** Histories of the registry *)

(** One [load_schema] call: its environment and its arguments. *)
Definition load_call : Type := environment * string * string * option string.

Definition call_name (c : load_call) : string :=
  let '(_, name, _, _) := c in name.

(** What the call returns or raises; the registry it starts from has no
    part in it ([load_schema_run]). *)
Definition call_outcome (c : load_call) : result (gmap string model) :=
  let '(env, name, file_path, base_path) := c in
  fst (load_schema env name file_path base_path ∅).

Definition run_call (self : registry) (c : load_call) : registry :=
  let '(env, name, file_path, base_path) := c in
  snd (load_schema env name file_path base_path self).

(** The registry of a process that made these calls, oldest first, on the
    empty registry of [__init__]. *)
Definition registry_after (history : list load_call) : registry :=
  fold_left run_call history ∅.

(** No call of the history loaded a schema under [name]: each call was for
    another name or raised. *)
Definition never_loaded (history : list load_call) (name : string) : Prop :=
  Forall (fun c => call_name c = name -> exists e, call_outcome c = Err e) history.

(** The mapping of the most recent call of the history that loaded a
    schema under [name], if there is one. *)
Fixpoint last_loaded (history : list load_call) (name : string)
  : option (gmap string model) :=
  match history with
  | [] => None
  | c :: later =>
      match last_loaded later name with
      | Some models => Some models
      | None =>
          if String.eqb (call_name c) name then
            match call_outcome c with
            | Ok models => Some models
            | Err _ => None
            end
          else None
      end
  end.

(** ** The command line ([nomos/cli.py]) *)

(** What ends a command before its last line.  [Exit] is [typer.Exit];
    [Failure] is any exception that derives from [Exception]. *)
Inductive cli_exn : Type :=
  | Exit (code : Z)
  | KeyboardInterrupt
  | Failure (what : string).

(** What a command prints, one constructor for each [console.print] of
    the commands below, with the values its text is formatted from. *)
Inductive message : Type :=
  | ConfigNotFound (config_path : string)
  | ToolNotFound (tool_path : string)
  | RunStopped
  | RunError (e : cli_exn)
  | NoTools
  | WorkingDirectory (current_dir : string)
  | ServerExited (returncode : Z)
  | ServePanel (port_or_config : option Z)
  | TestingPanel
  | RunningTests (cmd : list string)
  | AllTestsPassed
  | SomeTestsFailed
  | TestError (e : cli_exn).

(** What a command does to the world, in order.  [SetToolsPath] is
    [os.environ["TOOLS_PATH"] = os.pathsep.join(tool_dirs)]: the value
    joins the members of a Python set in its iteration order, which is
    left open here. *)
Inductive event : Type :=
  | Banner
  | Print (m : message)
  | SetToolsPath (tool_dirs : gset string)
  | WriteScript (temp_script_path config_path : string) (verbose : bool)
  | RunScript (temp_script_path : string)
  | Unlink (temp_script_path : string)
  | RunServer (config_path : string) (port workers : Z)
  | Pytest (cmd : list string)
  | YamlTests (yaml_path : string) (pytest_args : option (list string))
      (coverage : bool).

(** The machine a command runs on.  [tests_yaml] and [default_tool_dir]
    are [Path.cwd() / "tests.agent.yaml"] and [Path.cwd() / "tools"];
    [make_script] is the [NamedTemporaryFile] block of [_run], giving the
    name of the script written; [server_config] is
    [AgentConfig.from_yaml], as far as its [server.port] and
    [server.workers]; [exit_is_exception] tells whether [typer.Exit]
    derives from [Exception] (it is click's [Exit], a [RuntimeError]). *)
Record shell : Type := Shell {
  file_exists : string -> bool;
  is_dir : string -> bool;
  path_str : string -> string;
  parent : string -> string;
  current_dir : string;
  default_tool_dir : string;
  tests_yaml : string;
  make_script : string -> bool -> string + cli_exn;
  run_script : string -> Z + cli_exn;
  unlink : string -> option cli_exn;
  server_config : string -> (Z * Z) + cli_exn;
  run_server : string -> Z -> Z -> option cli_exn;
  pytest : list string -> Z + cli_exn;
  run_yaml_tests : string -> option (list string) -> bool -> Z + cli_exn;
  exit_is_exception : bool
}.

(** A command: the events it caused, and its value or what ended it. *)
Definition cli (A : Type) : Type := list event * (A + cli_exn).

#[global] Instance cli_ret : MRet cli := fun A a => ([], inl a).
#[global] Instance cli_bind : MBind cli := fun A B f m =>
  match m with
  | (events, inl a) => let '(events', r) := f a in ((events ++ events')%list, r)
  | (events, inr e) => (events, inr e)
  end.

Definition emit (ev : event) : cli unit := ([ev], inl tt).

Definition throw {A : Type} (e : cli_exn) : cli A := ([], inr e).

(** A call into the world that causes [ev] when it returns. *)
Definition call {A : Type} (outcome : A + cli_exn) (ev : A -> event) : cli A :=
  match outcome with
  | inl a => ([ev a], inl a)
  | inr e => ([], inr e)
  end.

(** [try: body finally: os.unlink(path)]. *)
Definition finally_unlink {A : Type} (sh : shell) (path : string) (body : cli A)
  : cli A :=
  let '(events, r) := body in
  match unlink sh path with
  | None => ((events ++ [Unlink path])%list, r)
  | Some e => (events, inr e)
  end.

(** [except Exception] catches [e]. *)
Definition is_exception (sh : shell) (e : cli_exn) : bool :=
  match e with
  | Exit _ => exit_is_exception sh
  | KeyboardInterrupt => false
  | Failure _ => true
  end.

(** The loop over [tools] of [run], [train] and [serve]. *)
Fixpoint check_tools (sh : shell) (tools tool_paths : list string)
  : cli (list string) :=
  match tools with
  | [] => mret tool_paths
  | tool_file :: tools' =>
      if file_exists sh tool_file
      then check_tools sh tools' (tool_paths ++ [tool_file])%list
      else _ ← emit (Print (ToolNotFound tool_file)); throw (Exit 1)
  end.

(** [str(p if p.is_dir() else p.parent)]. *)
Definition tool_dir (sh : shell) (p : string) : string :=
  if is_dir sh p then path_str sh p else parent sh p.

(** Lines 677 to 680: the tool directories of [_run]. *)
Definition run_tool_dirs (sh : shell) (tool_files : list string) : gset string :=
  let tool_dirs : gset string := list_to_set (map (tool_dir sh) tool_files) in
  if file_exists sh (default_tool_dir sh)
  then tool_dirs ∪ {[default_tool_dir sh]}
  else tool_dirs.

(** Lines 391 to 397: the tool directories of [serve]. *)
Definition serve_tool_dirs (sh : shell) (tool_paths : list string) : gset string :=
  let tool_dirs : gset string := list_to_set (map (tool_dir sh) tool_paths) in
  if bool_decide (tool_dirs = ∅) && file_exists sh (default_tool_dir sh)
  then tool_dirs ∪ {[default_tool_dir sh]}
  else tool_dirs.

Definition _run (sh : shell) (config_path : string) (tool_files : list string)
    (verbose : bool) : cli unit :=
  let tool_dirs := run_tool_dirs sh tool_files in
  _ ← (if bool_decide (tool_dirs = ∅) then emit (Print NoTools)
       else emit (SetToolsPath tool_dirs));
  temp_script_path ← call (make_script sh config_path verbose)
                          (fun path => WriteScript path config_path verbose);
  finally_unlink sh temp_script_path
    (_ ← emit (Print (WorkingDirectory (current_dir sh)));
     returncode ← call (run_script sh temp_script_path)
                       (fun _ => RunScript temp_script_path);
     if Z.eqb returncode 0 || Z.eqb returncode 130 then mret tt
     else emit (Print (ServerExited returncode))).

Definition run (sh : shell) (config : string) (tools : option (list string))
    (verbose : bool) : cli unit :=
  _ ← emit Banner;
  if file_exists sh config then
    tool_paths ← check_tools sh (default [] tools) [];
    match _run sh config tool_paths verbose with
    | (events, inr KeyboardInterrupt) =>
        ((events ++ [Print RunStopped])%list, inl tt)
    | (events, inr e) =>
        if is_exception sh e
        then ((events ++ [Print (RunError e)])%list, inr (Exit 1))
        else (events, inr e)
    | done => done
    end
  else _ ← emit (Print (ConfigNotFound config)); throw (Exit 1).

Definition serve (sh : shell) (config : string) (tools : option (list string))
    (port workers : option Z) : cli unit :=
  _ ← emit Banner;
  if file_exists sh config then
    tool_paths ← check_tools sh (default [] tools) [];
    _ ← emit (Print (ServePanel
                       match port with
                       | Some p => if Z.eqb p 0 then None else Some p
                       | None => None
                       end));
    let tool_dirs := serve_tool_dirs sh tool_paths in
    _ ← (if bool_decide (tool_dirs = ∅) then mret tt
         else emit (SetToolsPath tool_dirs));
    cfg ← (([], server_config sh config) : cli (Z * Z));
    let run_port := default (fst cfg) port in
    let worker_count := default (snd cfg) workers in
    match run_server sh config run_port worker_count with
    | None => emit (RunServer config run_port worker_count)
    | Some e => throw e
    end
  else _ ← emit (Print (ConfigNotFound config)); throw (Exit 1).

(** Lines 892 to 895: the command of [_run_tests]. *)
Definition pytest_command (pytest_args : option (list string)) (coverage : bool)
  : list string :=
  let cmd := (["python"; "-m"; "pytest"] ++
              match pytest_args with
              | Some (arg :: args) => arg :: args
              | _ => ["."]
              end)%list in
  if coverage
  then (cmd ++ ["--cov=."; "--cov-report=term-missing"])%list
  else cmd.

Definition _run_tests (sh : shell) (pytest_args : option (list string))
    (coverage : bool) : cli unit :=
  let cmd := pytest_command pytest_args coverage in
  _ ← emit (Print (RunningTests cmd));
  returncode ← call (pytest sh cmd) (fun _ => Pytest cmd);
  if Z.eqb returncode 0 then emit (Print AllTestsPassed)
  else _ ← emit (Print SomeTestsFailed); throw (Exit returncode).

(** Line 433: [Path(config) if config else Path.cwd() / "tests.agent.yaml"]. *)
Definition yaml_path_of (sh : shell) (config : option string) : string :=
  match config with
  | Some c => if String.eqb c "" then tests_yaml sh else c
  | None => tests_yaml sh
  end.

Definition test (sh : shell) (config : option string) (coverage : bool)
    (pytest_args : option (list string)) : cli unit :=
  _ ← emit Banner;
  _ ← emit (Print TestingPanel);
  let yaml_path := yaml_path_of sh config in
  let body : cli unit :=
    if file_exists sh yaml_path then
      result ← call (run_yaml_tests sh yaml_path pytest_args coverage)
                    (fun _ => YamlTests yaml_path pytest_args coverage);
      if Z.eqb result 0 then emit (Print AllTestsPassed)
      else _ ← emit (Print SomeTestsFailed); throw (Exit result)
    else _run_tests sh pytest_args coverage in
  match body with
  | (events, inr e) =>
      if is_exception sh e
      then ((events ++ [Print (TestError e)])%list, inr (Exit 1))
      else (events, inr e)
  | done => done
  end.

(** *** The feedback step of [_train] (lines 849 to 883) *)

(** A continuation byte of UTF-8: [len] and slices count characters. *)
Definition is_continuation (c : ascii) : bool :=
  let n := nat_of_ascii c in (128 <=? n)%nat && (n <? 192)%nat.

Fixpoint characters (s : string) : nat :=
  match s with
  | EmptyString => O
  | String c s' => (if is_continuation c then 0 else 1) + characters s'
  end.

Fixpoint but_last_character (s : string) : string :=
  match s with
  | EmptyString => EmptyString
  | String c s' =>
      if Nat.eqb (characters s') 0 then EmptyString
      else String c (but_last_character s')
  end.

(** [len(x)]. *)
Definition py_len (x : json) : result nat :=
  match x with
  | JArr l => Ok (length l)
  | JStr s => Ok (characters s)
  | JObj d => Ok (length (PyDict.of_pairs d))
  | _ => Err TypeError
  end.

(** [x[:-1]].  On a dict the slice is an unhashable key or a missing one,
    by the version of the interpreter. *)
Definition py_but_last (x : json) : result json :=
  match x with
  | JArr l => Ok (JArr (removelast l))
  | JStr s => Ok (JStr (but_last_character s))
  | JObj _ => Err (External "dict[:-1]")
  | _ => Err TypeError
  end.

(** [c[k] = v] on a dict. *)
Definition py_setitem (c : json) (k : string) (v : json) : result json :=
  match c with
  | JObj d => Ok (JObj (PyDict.set (PyDict.of_pairs d) k v))
  | _ => Err TypeError
  end.

(** [DecisionExample] and, of [Step], the two fields the feedback step
    reads and writes. *)
Record decision_example : Type := DecisionExample {
  context : string;
  decision : string
}.

Record step : Type := Step {
  step_id : string;
  examples : option (list decision_example)
}.

(** Lines 874 to 883: the example goes to the first step of that id. *)
Fixpoint add_example (steps : list step) (current_step_id : json)
    (example : decision_example) : list step :=
  match steps with
  | [] => []
  | s :: steps' =>
      if json_is_str current_step_id (step_id s)
      then Step (step_id s) (Some (default [] (examples s) ++ [example])%list)
             :: steps'
      else s :: add_example steps' current_step_id example
  end.

(** Lines 849 to 883, from the answer [feedback] to the new session data
    and steps.  [generate_summary] is the call
    [config.get_llm().generate_summary(history_to_types(..))], giving
    [context_summary.summary]. *)
Definition feedback_step (generate_summary : json -> result (list string))
    (session_data : json) (steps : list step) (feedback : string)
  : result (json * list step) :=
  history ← py_get session_data "history";
  flow_state ← py_get session_data "flow_state";
  flow_memory_context ← (if truthy flow_state
                         then py_get flow_state "flow_memory_context"
                         else Ok JNull);
  current_step_id ← py_get session_data "current_step_id";
  n ← py_len history;
  history ← (if (1 <? n)%nat then py_but_last history else Ok (JArr []));
  flow_memory_context ←
    (if truthy flow_memory_context then
       m ← py_len flow_memory_context;
       if (1 <? m)%nat then py_but_last flow_memory_context else Ok (JArr [])
     else Ok (JArr []));
  session_data ← py_setitem session_data "history" history;
  session_data ←
    (if truthy flow_state then
       state ← py_getitem session_data "flow_state";
       state ← py_setitem state "context" flow_memory_context;
       py_setitem session_data "flow_state" state
     else Ok session_data);
  summarized ← (if truthy flow_state then Ok flow_memory_context
                else py_getitem session_data "history");
  summary ← generate_summary summarized;
  Ok (session_data,
      add_example steps current_step_id
        (DecisionExample (String.concat " " summary) feedback)).

(** ** Sample documents and environments *)

(** The document of the specification's scenario:
    [{"properties": {"age": {"type": "integer"},
                     "address": {"type": "object",
                                 "properties": {"city": {"type": "string"}}}},
      "required": ["age"]}]. *)
Definition address_members : list (string * json) :=
  [("type", JStr "object");
   ("properties", JObj [("city", JObj [("type", JStr "string")])])].

Definition person_properties : list (string * json) :=
  [("age", JObj [("type", JStr "integer")]);
   ("address", JObj address_members)].

Definition person_members : list (string * json) :=
  [("properties", JObj person_properties);
   ("required", JArr [JStr "age"])].

Definition person_doc : json := JObj person_members.

(** What [person_doc] compiles to under the root name "Person": its nested
    [address] record, its root record, and the mapping of the two. *)
Definition person_address : descriptor :=
  Descriptor "DynamicModel" [FieldSpec "city" TStr false (Some JNull) None].

Definition person_root : descriptor :=
  Descriptor "DynamicModel"
    [FieldSpec "age" TInt true None None;
     FieldSpec "address" (TModel person_address) false (Some JNull) None].

Definition person_models : gmap string model :=
  <["address" := Compiled person_address]> (<["Person" := Compiled person_root]> ∅).

(** A document in which a root property and a definition share the name
    "a":
    [{"properties": {"a": {"type": "object",
                           "properties": {"x": {"type": "string"}}}},
      "definitions": {"a": {"properties": {"y": {"type": "integer"}}}}}]. *)
Definition collision_doc : json :=
  JObj [("properties",
          JObj [("a", JObj [("type", JStr "object");
                            ("properties",
                              JObj [("x", JObj [("type", JStr "string")])])])]);
        ("definitions",
          JObj [("a", JObj [("properties",
                              JObj [("y", JObj [("type", JStr "integer")])])])])].

Definition collision_nested : descriptor :=
  Descriptor "DynamicModel" [FieldSpec "x" TStr false (Some JNull) None].

Definition collision_definition : descriptor :=
  Descriptor "DynamicModel" [FieldSpec "y" TInt false (Some JNull) None].

(** A document that writes the property "a" twice:
    [{"properties": {"a": {"type": "string"}, "a": {"type": "integer"}}}]. *)
Definition duplicate_properties : list (string * json) :=
  [("a", JObj [("type", JStr "string")]);
   ("a", JObj [("type", JStr "integer")])].

Definition duplicate_doc : json := JObj [("properties", JObj duplicate_properties)].

(** A POSIX file system with the scenario's document in
    [schemas/person.json], a native module in [schemas/itinerary.py], an
    empty document in [schemas/empty.json] and a text file. *)
Fixpoint split_last (c : ascii) (s : string) : option (string * string) :=
  match s with
  | EmptyString => None
  | String a s' =>
      match split_last c s' with
      | Some (before, from) => Some (String a before, from)
      | None => if Ascii.eqb a c then Some (EmptyString, s) else None
      end
  end.

Fixpoint leading_dots (s : string) : string * string :=
  match s with
  | String "." s' => let '(dots, rest) := leading_dots s' in (String "." dots, rest)
  | _ => (EmptyString, s)
  end.

Definition posix_splitext (p : string) : string * string :=
  let '(head, base) :=
    match split_last "/" p with
    | Some (before, String _ after) => (before ++ "/", after)
    | _ => (EmptyString, p)
    end in
  let '(dots, rest) := leading_dots base in
  match split_last "." rest with
  | Some (before, ext) => (head ++ dots ++ before, ext)
  | None => (p, EmptyString)
  end.

Definition posix_join (a b : string) : string :=
  if is_prefix "/" b then b
  else match split_last "/" a with
       | Some (_, "/") => a ++ b
       | _ => if String.eqb a "" then b else a ++ "/" ++ b
       end.

Definition itinerary_namespace : list (string * pyobj) :=
  [("Activity", PyType (UserClass "Activity" true));
   ("BaseModel", PyType BaseModel);
   ("DayPlan", PyType (UserClass "DayPlan" true));
   ("Itinerary", PyType (UserClass "Itinerary" true));
   ("List", PyOther);
   ("__name__", PyOther)].

Definition sample_env : environment := {|
  path_join := posix_join;
  path_exists := fun p =>
    existsb (String.eqb p)
      ["schemas/person.json"; "schemas/empty.json"; "schemas/itinerary.py";
       "schemas/notes.txt"];
  path_splitext := posix_splitext;
  read_json := fun p =>
    if String.eqb p "schemas/person.json" then Ok person_doc
    else if String.eqb p "schemas/empty.json" then Ok (JObj [])
    else Err (External "json.load");
  has_loader := fun _ _ => true;
  exec_module := fun _ p =>
    if String.eqb p "schemas/itinerary.py" then Ok itinerary_namespace
    else Err (External "exec_module")
|}.

Definition itinerary_models : gmap string model :=
  <["Itinerary" := Native (UserClass "Itinerary" true)]>
    (<["DayPlan" := Native (UserClass "DayPlan" true)]>
       (<["Activity" := Native (UserClass "Activity" true)]> ∅)).

(** A machine with [config.agent.yaml] and one tool file in [tools/], on
    which the development server ends with code 2 and pytest with code 5. *)
Definition sample_shell : shell := {|
  file_exists := fun p =>
    existsb (String.eqb p) ["config.agent.yaml"; "tools/search.py"; "/work/tools"];
  is_dir := fun p => String.eqb p "/work/tools";
  path_str := fun p => p;
  parent := fun p => if String.eqb p "tools/search.py" then "tools" else ".";
  current_dir := "/work";
  default_tool_dir := "/work/tools";
  tests_yaml := "/work/tests.agent.yaml";
  make_script := fun _ _ => inl "/tmp/tmpq1.py";
  run_script := fun _ => inl 2%Z;
  unlink := fun _ => None;
  server_config := fun _ => inl (8000%Z, 1%Z);
  run_server := fun _ _ _ => None;
  pytest := fun _ => inl 5%Z;
  run_yaml_tests := fun _ _ _ => inl 0%Z;
  exit_is_exception := true
|}.

(** Session data after two turns, without and with a flow. *)
Definition two_turns : list json :=
  [JObj [("role", JStr "user")]; JObj [("role", JStr "agent")]].

Definition sample_session : list (string * json) :=
  [("current_step_id", JStr "greet"); ("history", JArr two_turns)].

Definition sample_flow_session : list (string * json) :=
  [("current_step_id", JStr "greet");
   ("history", JArr two_turns);
   ("flow_state", JObj [("flow_memory_context", JArr two_turns)])].

Definition sample_steps : list step :=
  [Step "greet" None; Step "order" (Some []); Step "greet" (Some [])].

(** * Properties *)

(** ** The result monad *)

Lemma bind_Ok {A B : Type} (r : result A) (f : A -> result B) (b : B) :
  r ≫= f = Ok b -> exists a, r = Ok a /\ f a = Ok b.
Proof. destruct r as [a|e]; simpl; [eauto | discriminate]. Qed.

Lemma fmap_Ok {A B : Type} (r : result A) (f : A -> B) (b : B) :
  f <$> r = Ok b -> exists a, r = Ok a /\ b = f a.
Proof. destruct r as [a|e]; simpl; [intros [= <-]; eauto | discriminate]. Qed.

Lemma foldM_ext {A B : Type} (body1 body2 : A -> B -> result A) (xs : list B) :
  (forall acc x, In x xs -> body1 acc x = body2 acc x) ->
  forall acc, foldM body1 xs acc = foldM body2 xs acc.
Proof.
  induction xs as [|x xs IH]; intros Hext acc; simpl; [reflexivity|].
  rewrite (Hext acc x) by (left; reflexivity).
  destruct (body2 acc x) as [acc'|e]; simpl; [|reflexivity].
  apply IH. intros acc0 y Hy. apply Hext. right; exact Hy.
Qed.

(** ** Dicts *)

Section Dicts.
Context {V : Type}.
Implicit Types (d : list (string * V)) (k : string) (v : V).

Lemma get_In d k v : PyDict.get d k = Some v -> In (k, v) d.
Proof.
  induction d as [|[k' v'] d IH]; simpl; [discriminate|].
  destruct (PyDict.get d k) as [v0|].
  - intros [= ->]. right; auto.
  - destruct (String.eqb k' k) eqn:E; [|discriminate].
    apply String.eqb_eq in E. intros [= ->]. left; congruence.
Qed.

Lemma get_None d k : PyDict.get d k = None <-> ~ In k (PyDict.keys d).
Proof.
  induction d as [|[k' v'] d IH]; simpl; [tauto|].
  destruct (PyDict.get d k) as [v0|].
  - split; [discriminate|]. intros H. exfalso. apply H. right.
    destruct IH as [_ IH]. destruct (in_dec string_dec k (PyDict.keys d)) as [i|n];
      [exact i|]. specialize (IH n). discriminate.
  - destruct (String.eqb k' k) eqn:E.
    + apply String.eqb_eq in E. split; [discriminate|]. intros H. exfalso. auto.
    + apply String.eqb_neq in E. split; [|reflexivity].
      intros _ [H|H]; [contradiction|]. apply IH in H; auto.
Qed.

Lemma get_unique d k v :
  List.NoDup (PyDict.keys d) -> In (k, v) d -> PyDict.get d k = Some v.
Proof.
  induction d as [|[k' v'] d IH]; simpl; [tauto|].
  intros Hnd Hin. apply List.NoDup_cons_iff in Hnd as [Hfresh Hnd].
  destruct Hin as [[= -> ->]|Hin].
  - apply get_None in Hfresh. rewrite Hfresh, String.eqb_refl. reflexivity.
  - rewrite (IH Hnd Hin). reflexivity.
Qed.

Lemma set_fresh d k v :
  ~ In k (PyDict.keys d) -> PyDict.set d k v = (d ++ [(k, v)])%list.
Proof.
  induction d as [|[k' v'] d IH]; simpl; [reflexivity|].
  intros H. destruct (String.eqb k' k) eqn:E.
  - apply String.eqb_eq in E. exfalso. auto.
  - rewrite IH by auto. reflexivity.
Qed.

Lemma keys_set_present d k v :
  In k (PyDict.keys d) -> PyDict.keys (PyDict.set d k v) = PyDict.keys d.
Proof.
  induction d as [|[k' v'] d IH]; simpl; [tauto|].
  intros H. destruct (String.eqb k' k) eqn:E; simpl; [reflexivity|].
  apply String.eqb_neq in E. destruct H as [H|H]; [contradiction|].
  rewrite IH by exact H. reflexivity.
Qed.

Lemma keys_set_NoDup d k v :
  List.NoDup (PyDict.keys d) -> List.NoDup (PyDict.keys (PyDict.set d k v)).
Proof.
  intros Hnd. destruct (in_dec string_dec k (PyDict.keys d)) as [i|n].
  - rewrite keys_set_present by exact i. exact Hnd.
  - rewrite set_fresh by exact n. unfold PyDict.keys. rewrite map_app. simpl.
    apply List.NoDup_app.
    + exact Hnd.
    + constructor; [simpl; tauto|constructor].
    + intros x Hx [<-|[]]. contradiction.
Qed.

Lemma get_set d k v k0 :
  List.NoDup (PyDict.keys d) ->
  PyDict.get (PyDict.set d k v) k0 =
    if String.eqb k k0 then Some v else PyDict.get d k0.
Proof.
  induction d as [|[k' v'] d IH]; simpl; intros Hnd.
  - destruct (String.eqb k k0); reflexivity.
  - apply List.NoDup_cons_iff in Hnd as [Hfresh Hnd].
    destruct (String.eqb k' k) eqn:E; simpl.
    + apply String.eqb_eq in E. subst k'.
      destruct (String.eqb k k0) eqn:E0.
      * apply String.eqb_eq in E0. subst k0.
        apply get_None in Hfresh. rewrite Hfresh. reflexivity.
      * reflexivity.
    + rewrite IH by exact Hnd. destruct (String.eqb k k0) eqn:E0; [|reflexivity].
      apply String.eqb_eq in E0. subst k0. reflexivity.
Qed.

Lemma of_pairs_acc (pairs : list (string * V)) :
  forall acc, List.NoDup (PyDict.keys acc) ->
  let d := fold_left (fun d kv => PyDict.set d (fst kv) (snd kv)) pairs acc in
  List.NoDup (PyDict.keys d) /\
  forall k, PyDict.get d k =
            match PyDict.get pairs k with
            | Some v => Some v
            | None => PyDict.get acc k
            end.
Proof.
  induction pairs as [|[k' v'] pairs IH]; simpl; intros acc Hnd.
  - split; [exact Hnd|reflexivity].
  - destruct (IH (PyDict.set acc k' v') (keys_set_NoDup acc k' v' Hnd))
      as [Hnd' Hget].
    split; [exact Hnd'|]. intros k. rewrite Hget.
    destruct (PyDict.get pairs k); [reflexivity|].
    rewrite get_set by exact Hnd. destruct (String.eqb k' k); reflexivity.
Qed.

Lemma of_pairs_NoDup (pairs : list (string * V)) :
  List.NoDup (PyDict.keys (PyDict.of_pairs pairs)).
Proof. apply (of_pairs_acc pairs []). constructor. Qed.

Lemma of_pairs_get (pairs : list (string * V)) k :
  PyDict.get (PyDict.of_pairs pairs) k = PyDict.get pairs k.
Proof.
  destruct (of_pairs_acc pairs [] (List.NoDup_nil string)) as [_ H].
  unfold PyDict.of_pairs. rewrite H. destruct (PyDict.get pairs k); reflexivity.
Qed.

Lemma of_pairs_In (pairs : list (string * V)) k v :
  In (k, v) (PyDict.of_pairs pairs) <-> PyDict.get pairs k = Some v.
Proof.
  rewrite <- of_pairs_get. split.
  - apply get_unique, of_pairs_NoDup.
  - apply get_In.
Qed.

End Dicts.

(** ** Depth of the parts of a document *)

Lemma depth_item (d : list (string * json)) (k : string) (v : json) :
  In (k, v) d -> depth v < depth (JObj d).
Proof.
  simpl. induction d as [|[k' v'] d IH]; simpl; [tauto|].
  intros [[= -> ->]|Hin]; [lia|]. specialize (IH Hin). lia.
Qed.

Lemma depth_get (d : list (string * json)) (k : string) (v : json) :
  PyDict.get d k = Some v -> depth v < depth (JObj d).
Proof. intros H. eapply depth_item, get_In, H. Qed.

(** ** The recursion of the compiler *)

Lemma schema_fields_ext (f g : json -> result ftype) (schema : json) :
  (forall c, depth c < depth schema -> f c = g c) ->
  schema_fields f schema = schema_fields g schema.
Proof.
  intros Hext. unfold schema_fields.
  destruct (py_contains "properties" schema) as [[|]|e]; simpl; try reflexivity.
  destruct (py_get_default schema "required" (JArr [])) as [required|e];
    simpl; [|reflexivity].
  destruct (py_getitem schema "properties") as [properties|e] eqn:Hprops;
    simpl; [|reflexivity].
  destruct (py_items properties) as [items|e] eqn:Hitems; simpl; [|reflexivity].
  apply foldM_ext. intros acc [prop_name prop_schema] Hin.
  unfold property_field, property_info. simpl.
  rewrite Hext; [reflexivity|].
  destruct properties as [| | | | | |props]; try discriminate.
  injection Hitems as <-. apply of_pairs_In, get_In in Hin.
  destruct schema as [| | | | | |d]; try discriminate. simpl in Hprops.
  destruct (PyDict.get d "properties") as [v|] eqn:Hget; [|discriminate].
  injection Hprops as ->.
  pose proof (depth_get _ _ _ Hget). pose proof (depth_item _ _ _ Hin). lia.
Qed.

Lemma _json_type_to_python_with_ext (f g : json -> result ftype) (schema : json) :
  (forall c, depth c < depth schema -> f c = g c) ->
  _json_type_to_python_with f schema = _json_type_to_python_with g schema.
Proof.
  intros Hext. unfold _json_type_to_python_with, _json_schema_to_pydantic_with.
  rewrite (schema_fields_ext f g schema Hext).
  destruct (py_get schema "type") as [json_type|e]; simpl; [|reflexivity].
  repeat (match goal with
          | |- context [if json_is_str ?x ?s then _ else _] =>
              destruct (json_is_str x s); try reflexivity
          end).
  destruct (py_contains "items" schema) as [[|]|e]; simpl; try reflexivity.
  destruct (py_getitem schema "items") as [items|e] eqn:Hitems; simpl;
    [|reflexivity].
  rewrite Hext; [reflexivity|].
  destruct schema as [| | | | | |d]; try discriminate. simpl in Hitems.
  destruct (PyDict.get d "items") as [v|] eqn:Hget; [|discriminate].
  injection Hitems as ->. eapply depth_get, Hget.
Qed.

Lemma type_within_stable (n m : nat) (schema : json) :
  depth schema < n -> depth schema < m ->
  type_within n schema = type_within m schema.
Proof.
  revert m schema. induction n as [|n IH]; intros m schema Hn Hm; [lia|].
  destruct m as [|m]; [lia|]. simpl.
  apply _json_type_to_python_with_ext. intros c Hc. apply IH; lia.
Qed.

(** The defining equations of the two functions, as the source has them. *)
Lemma _json_type_to_python_eq (schema : json) :
  _json_type_to_python schema =
  _json_type_to_python_with _json_type_to_python schema.
Proof.
  unfold _json_type_to_python at 1. simpl.
  apply _json_type_to_python_with_ext. intros c Hc.
  unfold _json_type_to_python. apply type_within_stable; lia.
Qed.

Lemma _json_schema_to_pydantic_eq (schema : json) :
  _json_schema_to_pydantic schema =
  (fields ← schema_fields _json_type_to_python schema;
   create_base_model "DynamicModel" fields).
Proof. reflexivity. Qed.

(** ** The type mapping *)

Lemma json_is_str_true (x : json) (s : string) :
  json_is_str x s = true <-> x = JStr s.
Proof.
  destruct x; simpl; try (split; [discriminate|intros [=]]).
  rewrite String.eqb_eq. split; [congruence|intros [=]; exact H0].
Qed.

Lemma tag_is_not (tag : option json) (s : string) :
  tag <> Some (JStr s) -> json_is_str (default JNull tag) s = false.
Proof.
  intros Hne. destruct (json_is_str (default JNull tag) s) eqn:E; [|reflexivity].
  apply json_is_str_true in E. destruct tag as [x|]; simpl in E; [|discriminate].
  subst x. contradiction.
Qed.

(** ** The factory *)

Lemma first_duplicate_None (names : list string) :
  first_duplicate names = None <-> List.NoDup names.
Proof.
  induction names as [|n names IH]; simpl.
  - split; [constructor|reflexivity].
  - rewrite List.NoDup_cons_iff, <- IH.
    destruct (existsb (String.eqb n) names) eqn:E.
    + apply existsb_exists in E as (x & Hx & Heq).
      apply String.eqb_eq in Heq. subst x.
      split; [discriminate|tauto].
    + split; [|tauto]. intros H. split; [|exact H].
      intros Hin. assert (existsb (String.eqb n) names = true); [|congruence].
      apply existsb_exists. exists n. split; [exact Hin|apply String.eqb_refl].
Qed.

Lemma first_duplicate_Some (names : list string) (n : string) :
  first_duplicate names = Some n ->
  exists before after, names = (before ++ n :: after)%list /\ In n after.
Proof.
  induction names as [|m names IH]; simpl; [discriminate|].
  destruct (existsb (String.eqb m) names) eqn:E.
  - intros [= <-]. apply existsb_exists in E as (x & Hx & Heq).
    apply String.eqb_eq in Heq. subst x. exists [], names. auto.
  - intros H. destruct (IH H) as (before & after & -> & Hin).
    exists (m :: before), after. auto.
Qed.

Lemma create_base_model_Ok (name : string) (params : list (string * field_info)) :
  List.NoDup (PyDict.keys params) ->
  create_base_model name params = Ok (Descriptor name (map fieldspec_of params)).
Proof.
  intros H. apply first_duplicate_None in H. unfold create_base_model.
  rewrite H. reflexivity.
Qed.

Lemma create_base_model_inv (name : string) (params : list (string * field_info))
    (desc : descriptor) :
  create_base_model name params = Ok desc ->
  List.NoDup (PyDict.keys params) /\
  desc = Descriptor name (map fieldspec_of params).
Proof.
  unfold create_base_model.
  destruct (first_duplicate (PyDict.keys params)) eqn:E; [discriminate|].
  intros [= <-]. split; [apply first_duplicate_None, E|reflexivity].
Qed.

Lemma field_name_of (k : string) (fi : field_info) :
  field_name (fieldspec_of (k, fi)) = k.
Proof. unfold fieldspec_of. destruct (fi_default fi); reflexivity. Qed.

Lemma find_field_In (name : string) (params : list (string * field_info))
    (k : string) (fi : field_info) :
  List.NoDup (PyDict.keys params) -> In (k, fi) params ->
  find_field (Descriptor name (map fieldspec_of params)) k
  = Some (fieldspec_of (k, fi)).
Proof.
  unfold find_field. simpl.
  induction params as [|[k' fi'] params IH]; simpl; [tauto|].
  intros Hnd Hin. apply List.NoDup_cons_iff in Hnd as [Hfresh Hnd].
  change (field_name
            match fi_default fi' with
            | Ellipsis => FieldSpec k' (fi_type fi') true None (fi_description fi')
            | PyNone =>
                FieldSpec k' (fi_type fi') false (Some JNull) (fi_description fi')
            end) with (field_name (fieldspec_of (k', fi'))).
  rewrite field_name_of.
  destruct Hin as [[= -> ->]|Hin].
  - rewrite String.eqb_refl. reflexivity.
  - destruct (String.eqb k' k) eqn:E; [|apply IH; assumption].
    apply String.eqb_eq in E. subst k'. exfalso. apply Hfresh.
    apply (in_map fst) in Hin. exact Hin.
Qed.

(** ** The fields of a compiled schema *)

Lemma property_loop (self_type : json -> result ftype) (required : json)
    (items : list (string * json)) :
  List.NoDup (PyDict.keys items) ->
  forall acc fields,
    (forall k, In k (PyDict.keys items) -> ~ In k (PyDict.keys acc)) ->
    foldM (property_field self_type required) items acc = Ok fields ->
    exists new, fields = (acc ++ new)%list /\
                fields_match self_type required items new.
Proof.
  induction items as [|[k p] items IH]; simpl; intros Hnd acc fields Hdisj Hrun.
  - injection Hrun as <-. exists []. rewrite app_nil_r. split; constructor.
  - apply List.NoDup_cons_iff in Hnd as [Hfresh Hnd].
    apply bind_Ok in Hrun as (acc' & Hstep & Hrun).
    unfold property_field in Hstep. simpl in Hstep.
    apply bind_Ok in Hstep as (fi & Hinfo & [= <-]).
    rewrite set_fresh in Hrun by (apply Hdisj; left; reflexivity).
    apply IH in Hrun as (new & -> & Hnew); [|exact Hnd|].
    + exists ((k, fi) :: new). rewrite <- app_assoc. split; [reflexivity|].
      constructor; [split; [reflexivity|exact Hinfo]|exact Hnew].
    + intros k0 Hk0 Hin. unfold PyDict.keys in Hin. rewrite map_app in Hin.
      apply in_app_or in Hin as [Hin|[<-|[]]]; [|contradiction].
      apply (Hdisj k0); [right; exact Hk0|exact Hin].
Qed.

Lemma fields_match_keys self_type required items fields :
  fields_match self_type required items fields ->
  PyDict.keys fields = PyDict.keys items.
Proof.
  induction 1 as [|item entry items fields [Hk _] _ IH]; simpl;
    [reflexivity|congruence].
Qed.

Lemma fields_match_In self_type required items fields k p :
  fields_match self_type required items fields -> In (k, p) items ->
  exists fi, In (k, fi) fields /\ property_info self_type required k p = Ok fi.
Proof.
  induction 1 as [|item [k' fi] items fields [Hk Hinfo] _ IH]; simpl; [tauto|].
  intros [->|Hin].
  - simpl in Hk, Hinfo. subst k'. exists fi. split; [left; reflexivity|exact Hinfo].
  - destruct (IH Hin) as (fi0 & Hin0 & Hinfo0). exists fi0. split; [right|]; auto.
Qed.

(** What [schema_fields] returns for an object whose [properties] member is
    an object. *)
Lemma schema_fields_inv (self_type : json -> result ftype)
    (d props : list (string * json)) (fields : list (string * field_info)) :
  PyDict.get d "properties" = Some (JObj props) ->
  schema_fields self_type (JObj d) = Ok fields ->
  fields_match self_type (default (JArr []) (PyDict.get d "required"))
    (PyDict.of_pairs props) fields.
Proof.
  intros Hprops. unfold schema_fields. simpl. unfold PyDict.has.
  rewrite Hprops. simpl. intros Hrun.
  apply property_loop in Hrun as (new & -> & Hnew).
  - exact Hnew.
  - apply of_pairs_NoDup.
  - simpl. tauto.
Qed.

Lemma schema_fields_NoDup (self_type : json -> result ftype) (schema : json)
    (fields : list (string * field_info)) :
  schema_fields self_type schema = Ok fields -> List.NoDup (PyDict.keys fields).
Proof.
  unfold schema_fields. intros Hrun.
  apply bind_Ok in Hrun as ([|] & _ & Hrun); [|injection Hrun as <-; constructor].
  apply bind_Ok in Hrun as (required & _ & Hrun).
  apply bind_Ok in Hrun as (properties & _ & Hrun).
  apply bind_Ok in Hrun as (items & Hitems & Hrun).
  destruct properties as [| | | | | |props]; try discriminate.
  injection Hitems as <-.
  apply property_loop in Hrun as (new & -> & Hnew).
  - simpl. rewrite (fields_match_keys _ _ _ _ Hnew). apply of_pairs_NoDup.
  - apply of_pairs_NoDup.
  - simpl. tauto.
Qed.

Lemma property_info_inv self_type required k p fi :
  property_info self_type required k p = Ok fi ->
  exists t b, self_type p = Ok t /\ py_contains k required = Ok b /\
              fi_type fi = t /\
              fi_default fi = (if b : bool then Ellipsis else PyNone).
Proof.
  unfold property_info. intros H.
  apply bind_Ok in H as (t & Ht & H). apply bind_Ok in H as (b & Hb & H).
  apply bind_Ok in H as (description & _ & H).
  exists t, b. destruct (truthy description); injection H as <-; auto.
Qed.

(** The descriptor compiled from an object with a [properties] object: it
    is named "DynamicModel", and each property has its field. *)
Lemma compiled_fields (d props : list (string * json)) (desc : descriptor) :
  PyDict.get d "properties" = Some (JObj props) ->
  _json_schema_to_pydantic (JObj d) = Ok desc ->
  descriptor_name desc = "DynamicModel" /\
  map field_name (descriptor_fields desc) = PyDict.keys (PyDict.of_pairs props) /\
  forall k p, PyDict.get props k = Some p ->
    exists fi,
      property_info _json_type_to_python
        (default (JArr []) (PyDict.get d "required")) k p = Ok fi /\
      find_field desc k = Some (fieldspec_of (k, fi)).
Proof.
  intros Hprops Hrun. rewrite _json_schema_to_pydantic_eq in Hrun.
  apply bind_Ok in Hrun as (fields & Hfields & Hmake).
  apply create_base_model_inv in Hmake as [Hnd ->].
  pose proof (schema_fields_inv _ _ _ _ Hprops Hfields) as Hmatch.
  split; [reflexivity|]. split.
  - simpl. rewrite <- (fields_match_keys _ _ _ _ Hmatch).
    unfold PyDict.keys. rewrite map_map. apply map_ext.
    intros [k fi]. apply field_name_of.
  - intros k p Hget. apply of_pairs_In in Hget.
    destruct (fields_match_In _ _ _ _ _ _ Hmatch Hget) as (fi & Hin & Hinfo).
    exists fi. split; [exact Hinfo|]. apply find_field_In; assumption.
Qed.

(** ** Required and optional fields *)

Lemma contains_list (k : string) (l : list json) :
  existsb (fun x => json_is_str x k) l = true <-> In (JStr k) l.
Proof.
  rewrite existsb_exists. split.
  - intros (x & Hx & Hstr). apply json_is_str_true in Hstr. congruence.
  - intros H. exists (JStr k). split; [exact H|]. apply json_is_str_true. reflexivity.
Qed.

(** ** Loops that fill the [models] dict *)

Section InsertLoop.
Context {B : Type}.
Variable step : gmap string model -> string * B -> result (gmap string model).
Hypothesis step_other : forall acc k b acc' k',
  step acc (k, b) = Ok acc' -> k' <> k -> acc' !! k' = acc !! k'.

(** A name no item carries keeps its entry. *)
Lemma loop_untouched (items : list (string * B)) :
  forall acc models k,
    foldM step items acc = Ok models -> ~ In k (PyDict.keys items) ->
    models !! k = acc !! k.
Proof.
  induction items as [|[k0 b0] items IH]; simpl; intros acc models k Hrun Hk.
  - injection Hrun as <-. reflexivity.
  - apply bind_Ok in Hrun as (acc' & Hstep & Hrun).
    rewrite (IH _ _ _ Hrun) by tauto.
    apply (step_other _ _ _ _ _ Hstep). intros ->. tauto.
Qed.

(** The entry under the name of an item is the one its pass left. *)
Lemma loop_touched (items : list (string * B)) :
  List.NoDup (PyDict.keys items) ->
  forall acc models k b,
    foldM step items acc = Ok models -> In (k, b) items ->
    exists acc0 acc1, step acc0 (k, b) = Ok acc1 /\
                      acc0 !! k = acc !! k /\ models !! k = acc1 !! k.
Proof.
  induction items as [|[k0 b0] items IH]; simpl; intros Hnd acc models k b Hrun Hin;
    [tauto|].
  apply List.NoDup_cons_iff in Hnd as [Hfresh Hnd].
  apply bind_Ok in Hrun as (acc' & Hstep & Hrun).
  destruct Hin as [[= -> ->]|Hin].
  - exists acc, acc'. split; [exact Hstep|]. split; [reflexivity|].
    apply (loop_untouched _ _ _ _ Hrun Hfresh).
  - destruct (IH Hnd _ _ _ _ Hrun Hin) as (acc0 & acc1 & Hs & H0 & H1).
    exists acc0, acc1. split; [exact Hs|]. split; [|exact H1].
    rewrite H0. apply (step_other _ _ _ _ _ Hstep).
    intros ->. apply Hfresh. apply (in_map fst) in Hin. exact Hin.
Qed.

End InsertLoop.

Lemma root_property_model_inv (acc acc' : gmap string model) (k : string) (p : json) :
  root_property_model acc (k, p) = Ok acc' ->
  if object_with_properties p
  then exists m, _json_schema_to_pydantic p = Ok m /\ acc' = <[k := Compiled m]> acc
  else acc' = acc.
Proof.
  unfold root_property_model, object_with_properties.
  destruct p as [| | | | | |pd]; try discriminate. simpl.
  destruct (json_is_str (default JNull (PyDict.get pd "type")) "object"); simpl;
    [|intros [= <-]; reflexivity].
  destruct (PyDict.has pd "properties"); [|intros [= <-]; reflexivity].
  intros H. apply bind_Ok in H as (m & Hm & [= <-]). exists m. auto.
Qed.

Lemma root_property_model_other acc k p acc' k' :
  root_property_model acc (k, p) = Ok acc' -> k' <> k -> acc' !! k' = acc !! k'.
Proof.
  intros H Hne. apply root_property_model_inv in H.
  destruct (object_with_properties p); [|subst; reflexivity].
  destruct H as (m & _ & ->). apply lookup_insert_ne. congruence.
Qed.

Lemma definition_model_inv (acc acc' : gmap string model) (k : string) (s : json) :
  definition_model acc (k, s) = Ok acc' ->
  exists m, _json_schema_to_pydantic s = Ok m /\ acc' = <[k := Compiled m]> acc.
Proof.
  unfold definition_model. intros H.
  apply bind_Ok in H as (m & Hm & [= <-]). exists m. auto.
Qed.

Lemma definition_model_other acc k s acc' k' :
  definition_model acc (k, s) = Ok acc' -> k' <> k -> acc' !! k' = acc !! k'.
Proof.
  intros H Hne. apply definition_model_inv in H as (m & _ & ->).
  apply lookup_insert_ne. congruence.
Qed.

(** The three stages of [json_models] on a document with a [properties]
    object: the root model, the loop over the root properties, the loop
    over the definitions. *)
Lemma json_models_inv (name : string) (d props : list (string * json))
    (models : gmap string model) :
  PyDict.get d "properties" = Some (JObj props) ->
  json_models name (JObj d) = Ok models ->
  exists root models1,
    _json_schema_to_pydantic (JObj d) = Ok root /\
    foldM root_property_model (PyDict.of_pairs props)
      (<[name := Compiled root]> ∅) = Ok models1 /\
    match PyDict.get d "definitions" with
    | None => models = models1
    | Some definitions =>
        exists defs, definitions = JObj defs /\
          foldM definition_model (PyDict.of_pairs defs) models1 = Ok models
    end.
Proof.
  intros Hprops. unfold json_models. simpl. unfold PyDict.has.
  rewrite Hprops. simpl. intros Hrun.
  apply bind_Ok in Hrun as (models1 & Hroot & Hrun).
  apply bind_Ok in Hroot as (root & Hrootm & Hloop).
  exists root, models1. split; [exact Hrootm|]. split; [exact Hloop|].
  destruct (PyDict.get d "definitions") as [definitions|]; simpl in Hrun.
  - apply bind_Ok in Hrun as (items & Hitems & Hrun).
    destruct definitions as [| | | | | |defs]; try discriminate.
    injection Hitems as <-. exists defs. auto.
  - congruence.
Qed.

Lemma compiled_name (schema : json) (m : descriptor) :
  _json_schema_to_pydantic schema = Ok m -> descriptor_name m = "DynamicModel".
Proof.
  rewrite _json_schema_to_pydantic_eq. intros H.
  apply bind_Ok in H as (fields & _ & H).
  apply create_base_model_inv in H as [_ ->]. reflexivity.
Qed.

Lemma root_loop_nested (props : list (string * json)) (init models1 : gmap string model)
    (k : string) (p : json) :
  foldM root_property_model (PyDict.of_pairs props) init = Ok models1 ->
  PyDict.get props k = Some p -> object_with_properties p = true ->
  exists m, _json_schema_to_pydantic p = Ok m /\ models1 !! k = Some (Compiled m).
Proof.
  intros Hloop Hget Hnested. apply of_pairs_In in Hget.
  destruct (loop_touched root_property_model root_property_model_other
              _ (of_pairs_NoDup props) _ _ _ _ Hloop Hget)
    as (acc0 & acc1 & Hstep & _ & Hk).
  apply root_property_model_inv in Hstep. rewrite Hnested in Hstep.
  destruct Hstep as (m & Hm & ->). exists m. split; [exact Hm|].
  rewrite Hk. apply lookup_insert_eq.
Qed.

Lemma root_loop_kept (props : list (string * json)) (init models1 : gmap string model)
    (k : string) :
  foldM root_property_model (PyDict.of_pairs props) init = Ok models1 ->
  (forall p, PyDict.get props k = Some p -> object_with_properties p = false) ->
  models1 !! k = init !! k.
Proof.
  intros Hloop Hflat. destruct (PyDict.get props k) as [p|] eqn:Hget.
  - specialize (Hflat p eq_refl). apply of_pairs_In in Hget.
    destruct (loop_touched root_property_model root_property_model_other
                _ (of_pairs_NoDup props) _ _ _ _ Hloop Hget)
      as (acc0 & acc1 & Hstep & H0 & Hk).
    apply root_property_model_inv in Hstep. rewrite Hflat in Hstep.
    subst acc1. congruence.
  - apply (loop_untouched root_property_model root_property_model_other
             _ _ _ _ Hloop).
    apply get_None. rewrite of_pairs_get. exact Hget.
Qed.

Lemma definitions_loop_kept (defs : list (string * json))
    (models1 models : gmap string model) (k : string) :
  foldM definition_model (PyDict.of_pairs defs) models1 = Ok models ->
  PyDict.get defs k = None -> models !! k = models1 !! k.
Proof.
  intros Hloop Hget.
  apply (loop_untouched definition_model definition_model_other _ _ _ _ Hloop).
  apply get_None. rewrite of_pairs_get. exact Hget.
Qed.

Lemma definitions_loop_named (defs : list (string * json))
    (models1 models : gmap string model) (k : string) (s : json) :
  foldM definition_model (PyDict.of_pairs defs) models1 = Ok models ->
  PyDict.get defs k = Some s ->
  exists m, _json_schema_to_pydantic s = Ok m /\ models !! k = Some (Compiled m).
Proof.
  intros Hloop Hget. apply of_pairs_In in Hget.
  destruct (loop_touched definition_model definition_model_other
              _ (of_pairs_NoDup defs) _ _ _ _ Hloop Hget)
    as (acc0 & acc1 & Hstep & _ & Hk).
  apply definition_model_inv in Hstep as (m & Hm & ->).
  exists m. split; [exact Hm|]. rewrite Hk. apply lookup_insert_eq.
Qed.

Lemma after_definitions (d : list (string * json)) (models1 models : gmap string model)
    (k : string) :
  match PyDict.get d "definitions" with
  | None => models = models1
  | Some definitions =>
      exists defs, definitions = JObj defs /\
        foldM definition_model (PyDict.of_pairs defs) models1 = Ok models
  end ->
  not_a_definition d k -> models !! k = models1 !! k.
Proof.
  unfold not_a_definition. destruct (PyDict.get d "definitions") as [definitions|].
  - intros (defs & -> & Hloop) Hk.
    apply (definitions_loop_kept _ _ _ _ Hloop). apply Hk. reflexivity.
  - intros -> _. reflexivity.
Qed.

Lemma nested_object_type (pd : list (string * json)) :
  object_with_properties (JObj pd) = true ->
  _json_type_to_python (JObj pd) = TModel <$> _json_schema_to_pydantic (JObj pd).
Proof.
  simpl. intros H. apply andb_true_iff in H as [Htype Hhas].
  rewrite _json_type_to_python_eq. unfold _json_type_to_python_with. simpl.
  apply json_is_str_true in Htype. rewrite Htype, Hhas. reflexivity.
Qed.

Lemma field_type_of (k : string) (fi : field_info) :
  field_type (fieldspec_of (k, fi)) = fi_type fi.
Proof. unfold fieldspec_of. destruct (fi_default fi); reflexivity. Qed.

Lemma properties_is_object (name : string) (d : list (string * json))
    (models : gmap string model) :
  PyDict.has d "properties" = true ->
  json_models name (JObj d) = Ok models ->
  exists props, PyDict.get d "properties" = Some (JObj props).
Proof.
  unfold json_models, PyDict.has. simpl. unfold PyDict.has.
  destruct (PyDict.get d "properties") as [v|]; [|discriminate].
  intros _ Hrun. simpl in Hrun.
  apply bind_Ok in Hrun as (models1 & Hroot & _).
  apply bind_Ok in Hroot as (root & _ & Hloop).
  apply bind_Ok in Hloop as (items & Hitems & _).
  destruct v as [| | | | | |props]; try discriminate. exists props. reflexivity.
Qed.

(** ** The registry *)

Lemma _load_json_schema_run (env : environment) (name file_path : string)
    (self : registry) :
  let r := schema_data ← read_json env file_path; json_models name schema_data in
  _load_json_schema env name file_path self = (r, leaves name r self).
Proof.
  unfold _load_json_schema, mbind, stateful_bind, lift, store, mret, stateful_ret.
  destruct (read_json env file_path) as [schema_data|e]; simpl; [|reflexivity].
  destruct (json_models name schema_data); reflexivity.
Qed.

Lemma _load_python_schema_run (env : environment) (name file_path : string)
    (self : registry) :
  let r :=
    if has_loader env name file_path
    then (fun namespace => fold_left harvest namespace ∅)
           <$> exec_module env name file_path
    else Err (ImportError ("Could not load Python module: " ++ file_path)) in
  _load_python_schema env name file_path self = (r, leaves name r self).
Proof.
  unfold _load_python_schema, mbind, stateful_bind, lift, store, mret,
    stateful_ret, raise.
  destruct (has_loader env name file_path); [|reflexivity].
  destruct (exec_module env name file_path); reflexivity.
Qed.

Lemma load_schema_run (env : environment) (name file_path : string)
    (base_path : option string) (self : registry) :
  load_schema env name file_path base_path self
  = (call_outcome (env, name, file_path, base_path),
     leaves name (call_outcome (env, name, file_path, base_path)) self).
Proof.
  unfold call_outcome, load_schema.
  destruct (path_exists env (resolved_path env file_path base_path));
    [|reflexivity].
  destruct (String.eqb _ ".json").
  { rewrite !_load_json_schema_run. reflexivity. }
  destruct (String.eqb _ ".py").
  { rewrite !_load_python_schema_run. reflexivity. }
  reflexivity.
Qed.

Lemma run_call_lookup (self : registry) (c : load_call) (n : string) :
  (call_name c = n -> exists e, call_outcome c = Err e) ->
  run_call self c !! n = self !! n.
Proof.
  destruct c as [[[env name] file_path] base_path].
  unfold run_call, call_name. intros Hc. rewrite load_schema_run. cbn [snd].
  destruct (call_outcome (env, name, file_path, base_path)) as [models|e] eqn:E;
    [|reflexivity].
  apply lookup_insert_ne. intros ->.
  destruct (Hc eq_refl) as (e & He). congruence.
Qed.

Lemma never_loaded_absent (history : list load_call) (n : string) :
  never_loaded history n -> registry_after history !! n = None.
Proof.
  unfold registry_after, never_loaded.
  assert (Hgen : forall self,
    Forall (fun c => call_name c = n -> exists e, call_outcome c = Err e) history ->
    fold_left run_call history self !! n = self !! n).
  { induction history as [|c history IH]; simpl; intros self H; [reflexivity|].
    apply Forall_cons in H as [Hc H]. rewrite (IH _ H).
    apply run_call_lookup, Hc. }
  intros H. rewrite (Hgen ∅ H). apply lookup_empty.
Qed.

(** ** Native modules *)

Lemma is_model_class_spec (c : py_class) :
  is_model_class c = true <-> issubclass_BaseModel c = true /\ c <> BaseModel.
Proof.
  unfold is_model_class. destruct c as [|q derives]; simpl.
  - split; [discriminate|]. intros [_ H]. congruence.
  - rewrite andb_true_r. split; [intros ->; split; [reflexivity|discriminate]|tauto].
Qed.

Lemma harvest_lookup (acc : gmap string model) (k : string) (a : pyobj) (n : string) :
  harvest acc (k, a) !! n =
    match a with
    | PyType c => if is_model_class c && String.eqb k n
                  then Some (Native c) else acc !! n
    | PyOther => acc !! n
    end.
Proof.
  unfold harvest. destruct a as [c|]; [|reflexivity].
  destruct (is_model_class c); [|reflexivity].
  simpl. destruct (String.eqb k n) eqn:E.
  - apply String.eqb_eq in E. subst. apply lookup_insert_eq.
  - apply String.eqb_neq in E. apply lookup_insert_ne. exact E.
Qed.

Lemma harvest_fold (namespace : list (string * pyobj)) :
  List.NoDup (PyDict.keys namespace) ->
  forall (acc : gmap string model) n m,
    fold_left harvest namespace acc !! n = Some m <->
    (exists c, In (n, PyType c) namespace /\ is_model_class c = true /\ m = Native c)
    \/ ((forall c, In (n, PyType c) namespace -> is_model_class c = false)
        /\ acc !! n = Some m).
Proof.
  induction namespace as [|[k a] namespace IH]; intros Hnd acc n m.
  - simpl. split; [intros H; right; split; [tauto|exact H]|].
    intros [(c & [] & _)|[_ H]]. exact H.
  - simpl in Hnd. apply List.NoDup_cons_iff in Hnd as [Hfresh Hnd].
    cbn [fold_left In]. rewrite (IH Hnd). rewrite harvest_lookup.
    assert (Hk : forall x, In (k, x) namespace -> False).
    { intros x Hx. apply Hfresh. apply (in_map fst) in Hx. exact Hx. }
    split.
    + intros [(c & Hin & Hc & ->)|[Hnone Hacc]].
      * left. exists c. auto.
      * destruct a as [c|].
        -- destruct (is_model_class c) eqn:Hc; simpl in Hacc.
           ++ destruct (String.eqb k n) eqn:E.
              ** apply String.eqb_eq in E. subst k. injection Hacc as <-.
                 left. exists c. auto.
              ** right. split; [|exact Hacc].
                 intros c0 [[= -> _]|H0]; [|auto].
                 rewrite String.eqb_refl in E. discriminate.
           ++ right. split; [|exact Hacc].
              intros c0 [[= _ <-]|H0]; auto.
        -- right. split; [|exact Hacc]. intros c0 [[=]|H0]; auto.
    + intros [(c & [[= -> ->]|Hin] & Hc & ->)|[Hnone Hacc]].
      * right. split; [intros c0 H0; destruct (Hk _ H0)|].
        rewrite Hc, String.eqb_refl. reflexivity.
      * left. exists c. auto.
      * right. split; [intros c0 H0; apply Hnone; right; exact H0|].
        destruct a as [c|]; [|exact Hacc].
        destruct (is_model_class c) eqn:Hc; [|exact Hacc]. simpl.
        destruct (String.eqb k n) eqn:E; [|exact Hacc].
        apply String.eqb_eq in E. subst k.
        rewrite (Hnone c) in Hc by (left; reflexivity). discriminate.
Qed.

(** ** The exceptions of the compiler *)

Lemma foldM_Err {A B : Type} (step : A -> B -> result A) (xs : list B) (e : py_exn) :
  forall acc, foldM step xs acc = Err e ->
  exists acc' x, In x xs /\ step acc' x = Err e.
Proof.
  induction xs as [|x xs IH]; simpl; intros acc H; [discriminate|].
  destruct (step acc x) as [acc'|e'] eqn:Hstep; simpl in H.
  - destruct (IH _ H) as (acc0 & x0 & Hin & H0). exists acc0, x0. auto.
  - injection H as ->. exists acc, x. auto.
Qed.

Lemma property_info_Err self_type required k p e :
  property_info self_type required k p = Err e ->
  builtin_error e \/ self_type p = Err e.
Proof.
  unfold property_info.
  destruct (self_type p) as [t|e']; simpl; [|intros [= ->]; right; reflexivity].
  destruct required; simpl; try (intros [= <-]; left; left; reflexivity);
    (destruct p; simpl; try (intros [= <-]; left; right; reflexivity);
     match goal with
     | |- context [truthy ?x] => destruct (truthy x); discriminate
     end).
Qed.

Lemma schema_fields_Err (self_type : json -> result ftype) (schema : json)
    (e : py_exn) :
  schema_fields self_type schema = Err e ->
  builtin_error e \/ exists c, depth c < depth schema /\ self_type c = Err e.
Proof.
  unfold schema_fields.
  destruct schema as [| | | |s|l|d]; simpl;
    try (intros [= <-]; left; left; reflexivity).
  - destruct (is_substring "properties" s); [|discriminate].
    intros [= <-]. left; right; reflexivity.
  - destruct (existsb _ l); [|discriminate].
    intros [= <-]. left; right; reflexivity.
  - unfold PyDict.has.
    destruct (PyDict.get d "properties") as [v|] eqn:Hget; [|discriminate].
    simpl. destruct v as [| | | | | |props]; simpl;
      try (intros [= <-]; left; right; reflexivity).
    intros H. apply foldM_Err in H as (acc & [k p] & Hin & Hstep).
    unfold property_field in Hstep. simpl in Hstep.
    destruct (property_info self_type _ k p) as [fi|e'] eqn:Hinfo; [discriminate|].
    injection Hstep as ->. apply property_info_Err in Hinfo as [Hb|Hrec];
      [left; exact Hb|].
    right. exists p. split; [|exact Hrec].
    apply of_pairs_In, get_In in Hin.
    pose proof (depth_get _ _ _ Hget) as H1.
    pose proof (depth_item _ _ _ Hin) as H2. simpl in H1, H2 |- *. lia.
Qed.

Lemma schema_to_pydantic_with_Err (self_type : json -> result ftype) (schema : json)
    (e : py_exn) :
  _json_schema_to_pydantic_with self_type schema = Err e ->
  builtin_error e \/ exists c, depth c < depth schema /\ self_type c = Err e.
Proof.
  unfold _json_schema_to_pydantic_with.
  destruct (schema_fields self_type schema) as [fields|e'] eqn:Hfields; simpl.
  - rewrite create_base_model_Ok by (eapply schema_fields_NoDup, Hfields).
    discriminate.
  - intros [= ->]. apply schema_fields_Err, Hfields.
Qed.

Lemma type_to_python_with_Err (self_type : json -> result ftype) (schema : json)
    (e : py_exn) :
  _json_type_to_python_with self_type schema = Err e ->
  builtin_error e \/ exists c, depth c < depth schema /\ self_type c = Err e.
Proof.
  unfold _json_type_to_python_with.
  destruct schema as [| | | | | |d]; simpl;
    try (intros [= <-]; left; right; reflexivity).
  repeat (match goal with
          | |- context [if json_is_str ?x ?s then _ else _] =>
              destruct (json_is_str x s); try discriminate
          end).
  - destruct (PyDict.has d "properties"); [|discriminate].
    destruct (_json_schema_to_pydantic_with self_type (JObj d)) as [m|e'] eqn:Hm;
      [discriminate|].
    simpl. intros [= ->]. apply schema_to_pydantic_with_Err in Hm. exact Hm.
  - unfold PyDict.has.
    destruct (PyDict.get d "items") as [v|] eqn:Hget; [|discriminate]. simpl.
    destruct (self_type v) as [t|e'] eqn:Hv; [discriminate|].
    simpl. intros [= ->]. right. exists v. split; [|exact Hv].
    exact (depth_get _ _ _ Hget).
Qed.

Lemma type_within_Err (n : nat) :
  forall schema e, depth schema < n -> type_within n schema = Err e ->
                   builtin_error e.
Proof.
  induction n as [|n IH]; intros schema e Hn H; [lia|]. simpl in H.
  apply type_to_python_with_Err in H as [H|(c & Hc & H)]; [exact H|].
  apply (IH c e); [lia|exact H].
Qed.

(** The compiler raises nothing but what the built-in operations raise; in
    particular the recursion never runs out of calls. *)
Lemma _json_type_to_python_Err (schema : json) (e : py_exn) :
  _json_type_to_python schema = Err e -> builtin_error e.
Proof. apply type_within_Err. lia. Qed.

Lemma _json_schema_to_pydantic_Err (schema : json) (e : py_exn) :
  _json_schema_to_pydantic schema = Err e -> builtin_error e.
Proof.
  intros H. apply schema_to_pydantic_with_Err in H as [H|(c & _ & H)];
    [exact H|]. exact (_json_type_to_python_Err _ _ H).
Qed.

(** ** Well-formed documents compile *)

Lemma foldM_total {A B : Type} (step : A -> B -> result A) (xs : list B) :
  (forall acc x, In x xs -> exists acc', step acc x = Ok acc') ->
  forall acc, exists r, foldM step xs acc = Ok r.
Proof.
  induction xs as [|x xs IH]; simpl; intros Hstep acc; [eauto|].
  destruct (Hstep acc x) as (acc' & ->); [left; reflexivity|]. simpl.
  apply IH. intros acc0 y Hy. apply Hstep. right; exact Hy.
Qed.

Lemma well_formed_object (schema : json) :
  well_formed schema -> exists d, schema = JObj d.
Proof. intros [d _ _ _ _]. exists d. reflexivity. Qed.

(** Both functions of the compiler return on a well-formed schema. *)
Lemma well_formed_compiles (schema : json) :
  well_formed schema ->
  (exists t, _json_type_to_python schema = Ok t) /\
  (exists desc, _json_schema_to_pydantic schema = Ok desc).
Proof.
  induction 1 as [d Hprops _ IHprops Hreq _ IHitems].
  assert (Hdesc : exists desc, _json_schema_to_pydantic (JObj d) = Ok desc).
  { rewrite _json_schema_to_pydantic_eq.
    assert (Hfields : exists fields,
              schema_fields _json_type_to_python (JObj d) = Ok fields).
    { unfold schema_fields. simpl. unfold PyDict.has.
      destruct (PyDict.get d "properties") as [v|] eqn:Hget; [|eauto].
      destruct (Hprops v eq_refl) as (props & ->). simpl.
      apply foldM_total. intros acc [k p] Hin. apply of_pairs_In in Hin.
      destruct (IHprops props k p eq_refl Hin) as [(t & Ht) _].
      unfold property_field, property_info. simpl. rewrite Ht. simpl.
      assert (Hc : exists b,
                py_contains k (default (JArr []) (PyDict.get d "required")) = Ok b).
      { destruct (PyDict.get d "required") as [r|] eqn:Hr; [|simpl; eauto].
        destruct (Hreq r eq_refl) as (l & ->). simpl. eauto. }
      destruct Hc as (b & ->). simpl.
      destruct p as [| | | | | |pd]; try discriminate. simpl.
      destruct (truthy _); simpl; eauto. }
    destruct Hfields as (fields & Hfields). rewrite Hfields. simpl.
    rewrite create_base_model_Ok by (eapply schema_fields_NoDup, Hfields). eauto. }
  split; [|exact Hdesc].
  rewrite _json_type_to_python_eq. unfold _json_type_to_python_with. simpl.
  fold (_json_schema_to_pydantic (JObj d)). destruct Hdesc as (desc & ->).
  repeat (match goal with
          | |- context [if json_is_str ?x ?s then _ else _] =>
              destruct (json_is_str x s); [eauto|]
          end).
  - destruct (PyDict.has d "properties"); simpl; eauto.
  - unfold PyDict.has.
    destruct (PyDict.get d "items") as [v|] eqn:Hget; [|eauto]. simpl.
    destruct (IHitems v eq_refl) as [(t & ->) _]. simpl. eauto.
  - eauto.
Qed.

(** A well-formed document compiles to a mapping, under any root name. *)
Lemma well_formed_document_compiles (name : string) (d : list (string * json)) :
  well_formed_document d -> exists models, json_models name (JObj d) = Ok models.
Proof.
  intros [Hwf Hdefs].
  assert (Hstep : forall (models1 : gmap string model),
    exists models, (has_definitions ← py_contains "definitions" (JObj d);
                    if has_definitions : bool then
                      definitions ← py_getitem (JObj d) "definitions";
                      items ← py_items definitions;
                      foldM definition_model items models1
                    else Ok models1) = Ok models).
  { intros models1. simpl. unfold PyDict.has.
    destruct (PyDict.get d "definitions") as [v|] eqn:Hget; [|eauto].
    destruct (Hdefs v eq_refl) as (defs & -> & Hall). simpl.
    apply foldM_total. intros acc [k s] Hin. apply of_pairs_In in Hin.
    destruct (well_formed_compiles s (Hall k s Hin)) as [_ (m & Hm)].
    unfold definition_model. rewrite Hm. simpl. eauto. }
  unfold json_models. simpl. unfold PyDict.has.
  destruct (PyDict.get d "properties") as [v|] eqn:Hget; [|apply Hstep].
  simpl. destruct (well_formed_compiles _ Hwf) as [_ (root & ->)]. simpl.
  inversion Hwf as [d' Hprops Hall _ _ Heq]. subst d'.
  destruct (Hprops v Hget) as (props & ->). simpl.
  destruct (foldM_total root_property_model (PyDict.of_pairs props))
    with (acc := <[name := Compiled root]> (∅ : gmap string model))
    as (models1 & Hloop).
  { intros acc [k p] Hin. apply of_pairs_In in Hin.
    pose proof (Hall props k p Hget Hin) as Hp.
    destruct (well_formed_object p Hp) as (pd & ->).
    unfold root_property_model. simpl.
    destruct (json_is_str _ "object"); [|eauto].
    destruct (PyDict.has pd "properties"); [|eauto].
    destruct (well_formed_compiles _ Hp) as [_ (m & ->)]. simpl. eauto. }
  rewrite Hloop. simpl. apply Hstep.
Qed.

(** * The statements of the specification *)

(** ** The type mapping *)

(** C1.  The type of a field schema (an object [schema]) is decided by its
    [type] member: "string" gives the text type, "number" the
    floating-point type, "integer" the integer type, "boolean" the boolean
    type; "object" gives the nested record compiled from the same schema
    when it has a [properties] member and the open string-keyed mapping
    otherwise; "array" gives the sequence of the type resolved from its
    [items] member when it has one and the sequence of any otherwise; any
    other tag, or none, gives the any type.  The nested record is compiled
    recursively: it is the record named "DynamicModel" that has one field
    for each property of the schema, in document order, and the type of
    the field of a property is the type this same resolution gives to the
    schema of that property.  An exception raised while the nested record
    or the item type is resolved is the exception of the whole resolution;
    on a well-formed schema there is none and the resolution returns a
    type. *)
Theorem type_mapping (d : list (string * json)) :
  let schema := JObj d in
  let tag := PyDict.get d "type" in
  (well_formed schema -> exists t, _json_type_to_python schema = Ok t) /\
  (tag = Some (JStr "object") ->
     forall props desc,
       PyDict.get d "properties" = Some (JObj props) ->
       _json_type_to_python schema = Ok (TModel desc) ->
       exists fields,
         desc = Descriptor "DynamicModel" (map fieldspec_of fields) /\
         fields_match _json_type_to_python
           (default (JArr []) (PyDict.get d "required"))
           (PyDict.of_pairs props) fields /\
         map field_name (descriptor_fields desc)
         = PyDict.keys (PyDict.of_pairs props) /\
         forall k p, PyDict.get props k = Some p ->
           exists f, find_field desc k = Some f /\
                     _json_type_to_python p = Ok (field_type f)) /\
  (tag = Some (JStr "string") -> _json_type_to_python schema = Ok TStr) /\
  (tag = Some (JStr "number") -> _json_type_to_python schema = Ok TFloat) /\
  (tag = Some (JStr "integer") -> _json_type_to_python schema = Ok TInt) /\
  (tag = Some (JStr "boolean") -> _json_type_to_python schema = Ok TBool) /\
  (tag = Some (JStr "object") -> PyDict.has d "properties" = true ->
     _json_type_to_python schema = TModel <$> _json_schema_to_pydantic schema) /\
  (tag = Some (JStr "object") -> PyDict.has d "properties" = false ->
     _json_type_to_python schema = Ok TDictStrAny) /\
  (tag = Some (JStr "array") ->
     forall items, PyDict.get d "items" = Some items ->
     _json_type_to_python schema =
       (item_type ← _json_type_to_python items; Ok (TList item_type))) /\
  (tag = Some (JStr "array") -> PyDict.get d "items" = None ->
     _json_type_to_python schema = Ok (TList TAny)) /\
  ((forall s, In s ["string"; "number"; "integer"; "boolean"; "object"; "array"] ->
      tag <> Some (JStr s)) ->
     _json_type_to_python schema = Ok TAny).
Proof.
  intros schema tag. subst schema.
  split; [intros Hwf; apply (well_formed_compiles _ Hwf)|].
  split.
  { intros Htag props desc Hprops Hrun.
    assert (Hobj : object_with_properties (JObj d) = true).
    { simpl. fold tag. rewrite Htag. unfold PyDict.has. rewrite Hprops.
      reflexivity. }
    rewrite (nested_object_type _ Hobj) in Hrun.
    apply fmap_Ok in Hrun as (m & Hm & [= ->]).
    destruct (compiled_fields _ _ _ Hprops Hm) as (_ & Horder & Hfields).
    rewrite _json_schema_to_pydantic_eq in Hm.
    apply bind_Ok in Hm as (fields & Hschema & Hmake).
    apply create_base_model_inv in Hmake as [_ ->].
    exists fields. split; [reflexivity|].
    split; [exact (schema_fields_inv _ _ _ _ Hprops Hschema)|].
    split; [exact Horder|].
    intros k p Hget. destruct (Hfields k p Hget) as (fi & Hinfo & Hfind).
    apply property_info_inv in Hinfo as (t & b & Ht & _ & Hty & _).
    exists (fieldspec_of (k, fi)). split; [exact Hfind|].
    rewrite field_type_of, Hty. exact Ht. }
  rewrite _json_type_to_python_eq. unfold _json_type_to_python_with.
  change (py_get (JObj d) "type") with (Ok (A := json) (default JNull tag)).
  change (py_contains "properties" (JObj d))
    with (Ok (PyDict.has d "properties")).
  change (py_contains "items" (JObj d)) with (Ok (PyDict.has d "items")).
  change (py_getitem (JObj d) "items")
    with (match PyDict.get d "items" with
          | Some v => Ok v
          | None => Err (KeyError "items")
          end).
  fold (_json_schema_to_pydantic (JObj d)).
  repeat split.
  - intros ->. reflexivity.
  - intros ->. reflexivity.
  - intros ->. reflexivity.
  - intros ->. reflexivity.
  - intros -> Hhas. simpl. rewrite Hhas. reflexivity.
  - intros -> Hhas. simpl. rewrite Hhas. reflexivity.
  - intros -> items Hitems. simpl. unfold PyDict.has. rewrite Hitems. reflexivity.
  - intros -> Hitems. simpl. unfold PyDict.has. rewrite Hitems. reflexivity.
  - intros Hother. simpl.
    rewrite !tag_is_not by (apply Hother; simpl; tauto). reflexivity.
Qed.

Lemma type_mapping_witness :
  _json_type_to_python
    (JObj [("type", JStr "array"); ("items", JObj [("type", JStr "integer")])])
  = Ok (TList TInt) /\
  _json_type_to_python (JObj address_members) = Ok (TModel person_address) /\
  exists fields,
    person_address = Descriptor "DynamicModel" (map fieldspec_of fields) /\
    fields_match _json_type_to_python
      (default (JArr []) (PyDict.get address_members "required"))
      (PyDict.of_pairs [("city", JObj [("type", JStr "string")])]) fields /\
    map field_name (descriptor_fields person_address)
    = PyDict.keys (PyDict.of_pairs [("city", JObj [("type", JStr "string")])]) /\
    forall k p, PyDict.get [("city", JObj [("type", JStr "string")])] k = Some p ->
      exists f, find_field person_address k = Some f /\
                _json_type_to_python p = Ok (field_type f).
Proof.
  split; [|split].
  - destruct (type_mapping
                [("type", JStr "array"); ("items", JObj [("type", JStr "integer")])])
      as (_ & _ & _ & _ & _ & _ & _ & _ & Harray & _).
    rewrite (Harray eq_refl (JObj [("type", JStr "integer")]) eq_refl).
    destruct (type_mapping [("type", JStr "integer")]) as (_ & _ & _ & _ & Hint & _).
    rewrite (Hint eq_refl). reflexivity.
  - destruct (type_mapping address_members) as (_ & _ & _ & _ & _ & _ & Hobject & _).
    rewrite (Hobject eq_refl eq_refl). reflexivity.
  - destruct (type_mapping address_members) as (_ & Hnested & _).
    apply (Hnested eq_refl [("city", JObj [("type", JStr "string")])]
             person_address eq_refl).
    reflexivity.
Defined.

(** ** Required and optional fields *)

(** C2.  When an object schema with a [required] list compiles, every one
    of its properties has a [field_info] and, from it, a field in the
    descriptor.  For a property named in the list the default of the
    [field_info] is [...] and the field is mandatory and has no default;
    for any other property the default is [None] and the field is optional
    with the default [None], whatever its type. *)
Theorem required_policy (d props : list (string * json)) (required : list json)
    (desc : descriptor) :
  PyDict.get d "properties" = Some (JObj props) ->
  PyDict.get d "required" = Some (JArr required) ->
  _json_schema_to_pydantic (JObj d) = Ok desc ->
  forall k p, PyDict.get props k = Some p ->
    exists fi f,
      property_info _json_type_to_python (JArr required) k p = Ok fi /\
      f = fieldspec_of (k, fi) /\
      find_field desc k = Some f /\
      (In (JStr k) required ->
         fi_default fi = Ellipsis /\
         field_required f = true /\ field_default f = None) /\
      (~ In (JStr k) required ->
         fi_default fi = PyNone /\
         field_required f = false /\ field_default f = Some JNull).
Proof.
  intros Hprops Hreq Hrun k p Hget.
  destruct (compiled_fields d props desc Hprops Hrun) as (_ & _ & Hfields).
  destruct (Hfields k p Hget) as (fi & Hinfo & Hfind).
  rewrite Hreq in Hinfo. simpl in Hinfo.
  exists fi, (fieldspec_of (k, fi)).
  split; [exact Hinfo|]. split; [reflexivity|]. split; [exact Hfind|].
  apply property_info_inv in Hinfo as (t & b & _ & Hb & _ & Hdefault).
  simpl in Hb. injection Hb as Hb.
  unfold fieldspec_of. rewrite Hdefault. split; intros Hin.
  - apply contains_list in Hin. rewrite Hin in Hb. subst b. auto.
  - destruct b; [|auto]. exfalso. apply Hin, contains_list. congruence.
Qed.

Lemma required_policy_witness :
  exists fi f,
    property_info _json_type_to_python (JArr [JStr "age"]) "age"
      (JObj [("type", JStr "integer")]) = Ok fi /\
    f = fieldspec_of ("age", fi) /\
    find_field person_root "age" = Some f /\
    (In (JStr "age") [JStr "age"] ->
       fi_default fi = Ellipsis /\
       field_required f = true /\ field_default f = None) /\
    (~ In (JStr "age") [JStr "age"] ->
       fi_default fi = PyNone /\
       field_required f = false /\ field_default f = Some JNull).
Proof.
  apply (required_policy person_members person_properties [JStr "age"] person_root
           eq_refl eq_refl eq_refl "age" (JObj [("type", JStr "integer")]) eq_refl).
Defined.

(** ** Sibling models of nested objects *)

(** C3, as amended.  Let a root property [k] of a compiled document be an
    object schema of type "object" with a [properties] member, and let no
    definition of the document be named [k].  Then the mapping holds under
    [k] a model that is equal to the nested record which is the type of
    field [k] of the root descriptor.  If moreover [k] is not the root name,
    no root property with a model of its own carries the root name and no
    definition does, the root descriptor is in the mapping under the root
    name. *)
Theorem sibling_model (name k : string) (d props pd : list (string * json))
    (models : gmap string model) :
  PyDict.get d "properties" = Some (JObj props) ->
  PyDict.get props k = Some (JObj pd) ->
  object_with_properties (JObj pd) = true ->
  not_a_definition d k ->
  json_models name (JObj d) = Ok models ->
  exists root nested,
    _json_schema_to_pydantic (JObj d) = Ok root /\
    field_type <$> find_field root k = Some (TModel nested) /\
    models !! k = Some (Compiled nested) /\
    (k <> name ->
     (forall q, PyDict.get props name = Some q -> object_with_properties q = false) ->
     not_a_definition d name ->
     models !! name = Some (Compiled root)).
Proof.
  intros Hprops Hk Hnested Hnodef Hrun.
  destruct (json_models_inv _ _ _ _ Hprops Hrun)
    as (root & models1 & Hroot & Hloop & Hdefs).
  destruct (compiled_fields _ _ _ Hprops Hroot) as (_ & _ & Hfields).
  destruct (Hfields _ _ Hk) as (fi & Hinfo & Hfind).
  apply property_info_inv in Hinfo as (t & b & Ht & _ & Hty & _).
  rewrite (nested_object_type _ Hnested) in Ht.
  apply fmap_Ok in Ht as (nested & Hnestedm & ->).
  destruct (root_loop_nested _ _ _ _ _ Hloop Hk Hnested) as (m & Hm & Hlookup).
  assert (m = nested) as -> by congruence.
  exists root, nested. split; [exact Hroot|]. split; [|split].
  - rewrite Hfind. unfold fmap, option_fmap, option_map.
    rewrite field_type_of, Hty. reflexivity.
  - rewrite (after_definitions _ _ _ _ Hdefs Hnodef). exact Hlookup.
  - intros _ Hflat Hnodef'.
    rewrite (after_definitions _ _ _ _ Hdefs Hnodef').
    rewrite (root_loop_kept _ _ _ _ Hloop Hflat). apply lookup_insert_eq.
Qed.

Lemma sibling_model_witness :
  exists root nested,
    _json_schema_to_pydantic person_doc = Ok root /\
    field_type <$> find_field root "address" = Some (TModel nested) /\
    person_models !! "address" = Some (Compiled nested) /\
    ("address" <> "Person" ->
     (forall q, PyDict.get person_properties "Person" = Some q ->
                object_with_properties q = false) ->
     not_a_definition person_members "Person" ->
     person_models !! "Person" = Some (Compiled root)).
Proof.
  apply (sibling_model "Person" "address" person_members person_properties
           address_members person_models).
  - reflexivity.
  - reflexivity.
  - reflexivity.
  - intros defs H. discriminate H.
  - vm_compute. reflexivity.
Defined.

(** C3 as stated fails on [collision_doc]: the model stored under "a" is
    the one compiled from the definition "a", with the field [y], while
    the type of field "a" of the root descriptor is the nested record with
    the field [x]. *)
Lemma sibling_model_counterexample :
  exists models root,
    json_models "Root" collision_doc = Ok models /\
    _json_schema_to_pydantic collision_doc = Ok root /\
    field_type <$> find_field root "a" = Some (TModel collision_nested) /\
    models !! "a" = Some (Compiled collision_definition) /\
    collision_definition <> collision_nested.
Proof.
  eexists _, _. split; [vm_compute; reflexivity|].
  split; [vm_compute; reflexivity|].
  split; [vm_compute; reflexivity|].
  split; [vm_compute; reflexivity|].
  discriminate.
Qed.

(** ** Lookups *)

(** C4.  [get_model] raises [ValueError("Schema '..' not found")] when no
    call ever loaded a schema under [schema_name] (in general, when the
    registry has no entry for it), raises
    [ValueError("Model '..' not found in schema '..'")] when the entry of
    [schema_name] has no model called [model_name], and in every case
    leaves the registry as it found it; it does not reach the file
    system. *)
Theorem get_model_miss (schema_name model_name : string) :
  (forall history, never_loaded history schema_name ->
     get_model schema_name model_name (registry_after history)
     = (Err (ValueError ("Schema '" ++ schema_name ++ "' not found")),
        registry_after history)) /\
  (forall self : registry, self !! schema_name = None ->
     get_model schema_name model_name self
     = (Err (ValueError ("Schema '" ++ schema_name ++ "' not found")), self)) /\
  (forall (self : registry) schema_models,
     self !! schema_name = Some schema_models ->
     schema_models !! model_name = None ->
     get_model schema_name model_name self
     = (Err (ValueError ("Model '" ++ model_name ++ "' not found in schema '"
                         ++ schema_name ++ "'")), self)) /\
  (forall self : registry, snd (get_model schema_name model_name self) = self).
Proof.
  assert (Habsent : forall self : registry, self !! schema_name = None ->
    get_model schema_name model_name self
    = (Err (ValueError ("Schema '" ++ schema_name ++ "' not found")), self)).
  { intros self H. unfold get_model. rewrite H. reflexivity. }
  split; [|split; [exact Habsent|split]].
  - intros history H. apply Habsent, never_loaded_absent, H.
  - intros self schema_models Hs Hm. unfold get_model. rewrite Hs, Hm. reflexivity.
  - intros self. unfold get_model. destruct (self !! schema_name) as [ms|];
      [|reflexivity]. destruct (ms !! model_name); reflexivity.
Qed.

Lemma get_model_miss_witness :
  get_model "Person" "Address"
    (registry_after [(sample_env, "Person", "person.json", Some "schemas")])
  = (Err (ValueError "Model 'Address' not found in schema 'Person'"),
     registry_after [(sample_env, "Person", "person.json", Some "schemas")]) /\
  get_model "Order" "Item"
    (registry_after [(sample_env, "Person", "person.json", Some "schemas")])
  = (Err (ValueError "Schema 'Order' not found"),
     registry_after [(sample_env, "Person", "person.json", Some "schemas")]).
Proof.
  split.
  - destruct (get_model_miss "Person" "Address") as (_ & _ & Hmodel & _).
    apply (Hmodel _ person_models); vm_compute; reflexivity.
  - destruct (get_model_miss "Order" "Item") as (Hschema & _).
    apply Hschema. constructor; [|constructor]. simpl. discriminate.
Defined.

(** ** Reloading *)

(** C5.  After two calls of [load_schema] under one name that both return,
    the registry holds under that name exactly the mapping the second call
    returned, which is what the second call returns on an empty registry;
    a model name of the first mapping that the second does not have is
    answered by [get_model] with
    [ValueError("Model '..' not found in schema '..'")]. *)
Theorem reload_replaces (env1 env2 : environment)
    (name file_path1 file_path2 : string) (base_path1 base_path2 : option string)
    (self0 self1 self1' self2 : registry) (models1 models2 : gmap string model) :
  load_schema env1 name file_path1 base_path1 self0 = (Ok models1, self1) ->
  load_schema env2 name file_path2 base_path2 self1' = (Ok models2, self2) ->
  self2 !! name = Some models2 /\
  fst (load_schema env2 name file_path2 base_path2 ∅) = Ok models2 /\
  forall model_name,
    is_Some (models1 !! model_name) -> models2 !! model_name = None ->
    get_model name model_name self2
    = (Err (ValueError ("Model '" ++ model_name ++ "' not found in schema '"
                        ++ name ++ "'")), self2).
Proof.
  intros _ Hsecond. rewrite load_schema_run in Hsecond.
  injection Hsecond as Hout Hleaves. rewrite Hout in Hleaves.
  simpl in Hleaves. subst self2.
  assert (Hstored : (<[name := models2]> self1' : registry) !! name = Some models2)
    by apply lookup_insert_eq.
  split; [exact Hstored|]. split; [exact Hout|].
  intros model_name _ Hgone. unfold get_model. rewrite Hstored, Hgone. reflexivity.
Qed.

Lemma reload_replaces_witness :
  (<["Person" := ∅]> (<["Person" := person_models]> ∅) : registry) !! "Person"
  = Some ∅ /\
  fst (load_schema sample_env "Person" "empty.json" (Some "schemas") ∅) = Ok ∅ /\
  forall model_name,
    is_Some (person_models !! model_name) ->
    (∅ : gmap string model) !! model_name = None ->
    get_model "Person" model_name
      (<["Person" := ∅]> (<["Person" := person_models]> ∅))
    = (Err (ValueError ("Model '" ++ model_name ++ "' not found in schema '"
                        ++ "Person" ++ "'")),
       <["Person" := ∅]> (<["Person" := person_models]> ∅)).
Proof.
  apply (reload_replaces sample_env sample_env "Person" "person.json" "empty.json"
           (Some "schemas") (Some "schemas")
           ∅ (<["Person" := person_models]> ∅) (<["Person" := person_models]> ∅)
           (<["Person" := ∅]> (<["Person" := person_models]> ∅))
           person_models ∅).
  - vm_compute. reflexivity.
  - vm_compute. reflexivity.
Defined.

(** ** Failing loads *)

(** C6.  [load_schema] raises [FileNotFoundError] when the resolved path
    does not exist, and [ValueError("Unsupported schema file type: ..")]
    when it exists and its lower-cased extension is neither ".json" nor
    ".py"; either way the registry is left as it was. *)
Theorem load_schema_failures (env : environment) (name file_path : string)
    (base_path : option string) (self : registry) :
  let path := resolved_path env file_path base_path in
  let file_ext := lower (snd (path_splitext env path)) in
  (path_exists env path = false ->
     load_schema env name file_path base_path self
     = (Err (FileNotFoundError ("Schema file not found: " ++ path)), self)) /\
  (path_exists env path = true -> file_ext <> ".json" -> file_ext <> ".py" ->
     load_schema env name file_path base_path self
     = (Err (ValueError ("Unsupported schema file type: " ++ file_ext)), self)).
Proof.
  intros path file_ext. unfold load_schema. fold path. fold file_ext. split.
  - intros ->. reflexivity.
  - intros -> Hjson Hpy.
    apply String.eqb_neq in Hjson. apply String.eqb_neq in Hpy.
    rewrite Hjson, Hpy. reflexivity.
Qed.

Lemma load_schema_failures_witness :
  load_schema sample_env "Person" "missing.json" (Some "schemas") ∅
  = (Err (FileNotFoundError "Schema file not found: schemas/missing.json"), ∅) /\
  load_schema sample_env "Notes" "notes.txt" (Some "schemas") ∅
  = (Err (ValueError "Unsupported schema file type: .txt"), ∅).
Proof.
  split.
  - apply (load_schema_failures sample_env "Person" "missing.json" (Some "schemas") ∅).
    reflexivity.
  - apply (load_schema_failures sample_env "Notes" "notes.txt" (Some "schemas") ∅).
    + reflexivity.
    + discriminate.
    + discriminate.
Defined.

(** ** The root model *)

(** C7, as amended.  When a document with a [properties] member compiles
    under a root name, the document itself compiles to a root descriptor;
    the type name of that descriptor is the fixed "DynamicModel", as is the
    type name of the model the mapping holds under the root name; and the
    model under the root name is the root descriptor unless a root
    property with a model of its own, or a definition, carries the root
    name. *)
Theorem root_model (name : string) (d : list (string * json))
    (models : gmap string model) :
  PyDict.has d "properties" = true ->
  json_models name (JObj d) = Ok models ->
  exists root,
    _json_schema_to_pydantic (JObj d) = Ok root /\
    descriptor_name root = "DynamicModel" /\
    (exists m, models !! name = Some (Compiled m) /\
               descriptor_name m = "DynamicModel") /\
    ((forall props q, PyDict.get d "properties" = Some (JObj props) ->
                      PyDict.get props name = Some q ->
                      object_with_properties q = false) ->
     not_a_definition d name ->
     models !! name = Some (Compiled root)).
Proof.
  intros Hhas Hrun.
  destruct (properties_is_object _ _ _ Hhas Hrun) as (props & Hprops).
  destruct (json_models_inv _ _ _ _ Hprops Hrun)
    as (root & models1 & Hroot & Hloop & Hdefs).
  exists root. split; [exact Hroot|].
  split; [exact (compiled_name _ _ Hroot)|]. split.
  - assert (H1 : exists m, models1 !! name = Some (Compiled m) /\
                           descriptor_name m = "DynamicModel").
    { destruct (PyDict.get props name) as [q|] eqn:Hq.
      - destruct (object_with_properties q) eqn:Hnested.
        + destruct (root_loop_nested _ _ _ _ _ Hloop Hq Hnested) as (m & Hm & Hl).
          exists m. split; [exact Hl|exact (compiled_name _ _ Hm)].
        + exists root. split; [|exact (compiled_name _ _ Hroot)].
          rewrite (root_loop_kept _ _ _ name Hloop); [apply lookup_insert_eq|].
          intros p Hp. congruence.
      - exists root. split; [|exact (compiled_name _ _ Hroot)].
        rewrite (root_loop_kept _ _ _ name Hloop); [apply lookup_insert_eq|].
        intros p Hp. congruence. }
    destruct (PyDict.get d "definitions") as [definitions|]; [|subst; exact H1].
    destruct Hdefs as (defs & -> & Hdloop).
    destruct (PyDict.get defs name) as [s|] eqn:Hs.
    + destruct (definitions_loop_named _ _ _ _ _ Hdloop Hs) as (m & Hm & Hl).
      exists m. split; [exact Hl|exact (compiled_name _ _ Hm)].
    + rewrite (definitions_loop_kept _ _ _ _ Hdloop Hs). exact H1.
  - intros Hflat Hnodef.
    rewrite (after_definitions _ _ _ _ Hdefs Hnodef).
    rewrite (root_loop_kept _ _ _ name Hloop); [apply lookup_insert_eq|].
    intros q Hq. exact (Hflat props q Hprops Hq).
Qed.

Lemma root_model_witness :
  exists root,
    _json_schema_to_pydantic person_doc = Ok root /\
    descriptor_name root = "DynamicModel" /\
    (exists m, person_models !! "Person" = Some (Compiled m) /\
               descriptor_name m = "DynamicModel") /\
    ((forall props q, PyDict.get person_members "properties" = Some (JObj props) ->
                      PyDict.get props "Person" = Some q ->
                      object_with_properties q = false) ->
     not_a_definition person_members "Person" ->
     person_models !! "Person" = Some (Compiled root)).
Proof.
  apply (root_model "Person" person_members person_models).
  - reflexivity.
  - vm_compute. reflexivity.
Defined.

(** C7 as stated fails on [person_doc] compiled under "Person": the two
    models of the mapping, the root descriptor among them, are named
    "DynamicModel", not "Person". *)
Lemma root_model_counterexample :
  json_models "Person" person_doc = Ok person_models /\
  _json_schema_to_pydantic person_doc = Ok person_root /\
  person_models !! "Person" = Some (Compiled person_root) /\
  descriptor_name person_root <> "Person" /\
  descriptor_name person_address <> "Person".
Proof.
  split; [vm_compute; reflexivity|].
  split; [vm_compute; reflexivity|].
  split; [vm_compute; reflexivity|].
  split; discriminate.
Qed.

(** ** Native modules *)

(** C8.  When a native module loads, the returned mapping has, under each
    name [n], exactly the class that the executed module binds to [n] if
    that class derives from [BaseModel] and is not [BaseModel] itself, and
    nothing otherwise; [BaseModel] is the value of no entry, and the
    mapping is stored under the schema name.  The key is the name of the
    symbol in the module; the names of [dir(module)] are pairwise
    distinct. *)
Theorem native_models (env : environment) (name file_path : string)
    (namespace : list (string * pyobj)) (self self' : registry)
    (models : gmap string model) :
  exec_module env name file_path = Ok namespace ->
  List.NoDup (PyDict.keys namespace) ->
  _load_python_schema env name file_path self = (Ok models, self') ->
  (forall n m, models !! n = Some m <->
     exists c, In (n, PyType c) namespace /\
               issubclass_BaseModel c = true /\ c <> BaseModel /\ m = Native c) /\
  (forall n, models !! n <> Some (Native BaseModel)) /\
  self' = <[name := models]> self.
Proof.
  intros Hexec Hnd Hrun. rewrite _load_python_schema_run in Hrun.
  rewrite Hexec in Hrun. simpl in Hrun.
  destruct (has_loader env name file_path); [|discriminate].
  simpl in Hrun. injection Hrun as <- <-.
  assert (Hchar : forall n m, fold_left harvest namespace ∅ !! n = Some m <->
     exists c, In (n, PyType c) namespace /\
               issubclass_BaseModel c = true /\ c <> BaseModel /\ m = Native c).
  { intros n m. rewrite (harvest_fold namespace Hnd). rewrite lookup_empty. split.
    - intros [(c & Hin & Hc & ->)|[_ [=]]].
      apply is_model_class_spec in Hc as [Hsub Hne]. exists c. auto.
    - intros (c & Hin & Hsub & Hne & ->). left. exists c.
      split; [exact Hin|]. split; [|reflexivity].
      apply is_model_class_spec. auto. }
  split; [exact Hchar|]. split; [|reflexivity].
  intros n H. apply Hchar in H as (c & _ & _ & Hne & [= <-]). congruence.
Qed.

Lemma native_models_witness :
  (forall n m, itinerary_models !! n = Some m <->
     exists c, In (n, PyType c) itinerary_namespace /\
               issubclass_BaseModel c = true /\ c <> BaseModel /\ m = Native c) /\
  (forall n, itinerary_models !! n <> Some (Native BaseModel)) /\
  (<["Trip" := itinerary_models]> ∅ : registry) = <["Trip" := itinerary_models]> ∅.
Proof.
  apply (native_models sample_env "Trip" "schemas/itinerary.py" itinerary_namespace
           ∅ (<["Trip" := itinerary_models]> ∅) itinerary_models).
  - reflexivity.
  - repeat constructor; simpl; intuition discriminate.
  - vm_compute. reflexivity.
Defined.

(** ** Fields of the same name *)

(** C9.  A call of the type factory whose field specifications hold two
    fields of one name is rejected: it raises [DuplicateFieldError], naming
    a field that occurs twice, and returns no descriptor; a call whose
    fields have pairwise distinct names returns the descriptor of all of
    them. *)
Theorem duplicate_fields_rejected (name : string)
    (params : list (string * field_info)) :
  (~ List.NoDup (PyDict.keys params) ->
   exists n before after,
     create_base_model name params = Err (DuplicateFieldError n) /\
     PyDict.keys params = (before ++ n :: after)%list /\ In n after) /\
  (List.NoDup (PyDict.keys params) ->
   create_base_model name params
   = Ok (Descriptor name (map fieldspec_of params))).
Proof.
  split; [|apply create_base_model_Ok].
  intros Hdup. unfold create_base_model.
  destruct (first_duplicate (PyDict.keys params)) as [n|] eqn:E.
  - destruct (first_duplicate_Some _ _ E) as (before & after & Hsplit & Hin).
    exists n, before, after. auto.
  - exfalso. apply Hdup, first_duplicate_None, E.
Qed.

Lemma duplicate_fields_rejected_witness :
  exists n before after,
    create_base_model "DynamicModel"
      [("a", FieldInfo TStr PyNone None); ("b", FieldInfo TAny PyNone None);
       ("a", FieldInfo TInt Ellipsis None)]
    = Err (DuplicateFieldError n) /\
    PyDict.keys [("a", FieldInfo TStr PyNone None); ("b", FieldInfo TAny PyNone None);
                 ("a", FieldInfo TInt Ellipsis None)]
    = (before ++ n :: after)%list /\
    In n after.
Proof.
  destruct (duplicate_fields_rejected "DynamicModel"
              [("a", FieldInfo TStr PyNone None); ("b", FieldInfo TAny PyNone None);
               ("a", FieldInfo TInt Ellipsis None)]) as [H _].
  apply H. intros Hnd. simpl in Hnd.
  apply List.NoDup_cons_iff in Hnd as [Hfresh _]. apply Hfresh. simpl. tauto.
Defined.

(** The compiler itself never makes such a call: the fields it hands to
    the factory are the entries of a dict keyed by property name, so it
    never raises [DuplicateFieldError], the fields of a compiled
    descriptor have pairwise distinct names, and the field of a property
    has the type resolved from the schema that [json.load] kept under its
    name. *)
Lemma compiler_fields_are_distinct (schema : json) :
  (forall self_type fields,
     schema_fields self_type schema = Ok fields ->
     List.NoDup (PyDict.keys fields)) /\
  (forall n, _json_schema_to_pydantic schema <> Err (DuplicateFieldError n)) /\
  (forall desc,
     _json_schema_to_pydantic schema = Ok desc ->
     List.NoDup (map field_name (descriptor_fields desc))) /\
  (forall d props desc k p,
     schema = JObj d ->
     PyDict.get d "properties" = Some (JObj props) ->
     _json_schema_to_pydantic schema = Ok desc ->
     PyDict.get props k = Some p ->
     exists t, _json_type_to_python p = Ok t /\
               field_type <$> find_field desc k = Some t).
Proof.
  split; [intros self_type fields; apply schema_fields_NoDup|].
  split; [|split].
  - intros n H. apply _json_schema_to_pydantic_Err in H as [H|H]; discriminate.
  - intros desc H. rewrite _json_schema_to_pydantic_eq in H.
    apply bind_Ok in H as (fields & _ & H).
    apply create_base_model_inv in H as [Hnd ->]. simpl.
    rewrite map_map.
    rewrite (map_ext _ fst) by (intros [k fi]; apply field_name_of). exact Hnd.
  - intros d props desc k p -> Hprops Hrun Hget.
    destruct (compiled_fields _ _ _ Hprops Hrun) as (_ & _ & Hfields).
    destruct (Hfields _ _ Hget) as (fi & Hinfo & Hfind).
    apply property_info_inv in Hinfo as (t & b & Ht & _ & Hty & _).
    exists t. split; [exact Ht|]. rewrite Hfind.
    unfold fmap, option_fmap, option_map. rewrite field_type_of, Hty. reflexivity.
Qed.

(** ** Documents without properties and definitions *)

(** C10.  Loading a ".json" file whose document is an object with neither
    a [properties] nor a [definitions] member returns the empty mapping and
    stores it under the schema name; [get_model] on that name then raises
    the model-not-found [ValueError] for every model name. *)
Theorem empty_document (env : environment) (name file_path : string)
    (base_path : option string) (d : list (string * json)) (self : registry) :
  let path := resolved_path env file_path base_path in
  path_exists env path = true ->
  lower (snd (path_splitext env path)) = ".json" ->
  read_json env path = Ok (JObj d) ->
  PyDict.has d "properties" = false ->
  PyDict.has d "definitions" = false ->
  load_schema env name file_path base_path self = (Ok ∅, <[name := ∅]> self) /\
  forall model_name,
    get_model name model_name (<[name := ∅]> self)
    = (Err (ValueError ("Model '" ++ model_name ++ "' not found in schema '"
                        ++ name ++ "'")), <[name := ∅]> self).
Proof.
  intros path Hexists Hext Hread Hprops Hdefs. split.
  - unfold load_schema. fold path. rewrite Hexists, Hext. simpl.
    rewrite _load_json_schema_run. rewrite Hread. simpl.
    unfold json_models. simpl. rewrite Hprops. simpl. rewrite Hdefs. reflexivity.
  - intros model_name. unfold get_model.
    rewrite lookup_insert_eq, lookup_empty. reflexivity.
Qed.

Lemma empty_document_witness :
  load_schema sample_env "Empty" "empty.json" (Some "schemas") ∅
  = (Ok ∅, <["Empty" := ∅]> ∅) /\
  forall model_name,
    get_model "Empty" model_name (<["Empty" := ∅]> ∅)
    = (Err (ValueError ("Model '" ++ model_name ++ "' not found in schema '"
                        ++ "Empty" ++ "'")), <["Empty" := ∅]> ∅).
Proof.
  apply (empty_document sample_env "Empty" "empty.json" (Some "schemas") [] ∅);
    reflexivity.
Defined.

(** * Further properties of the registry *)

Lemma run_call_registry (self : registry) (c : load_call) :
  run_call self c = leaves (call_name c) (call_outcome c) self.
Proof.
  destruct c as [[[env name] file_path] base_path].
  unfold run_call, call_name. rewrite load_schema_run. reflexivity.
Qed.

Lemma registry_after_from (history : list load_call) (n : string) :
  forall self : registry,
    fold_left run_call history self !! n =
      match last_loaded history n with
      | Some models => Some models
      | None => self !! n
      end.
Proof.
  induction history as [|c later IH]; intros self; [reflexivity|].
  cbn [fold_left last_loaded]. rewrite IH.
  destruct (last_loaded later n); [reflexivity|].
  rewrite run_call_registry. unfold leaves.
  destruct (String.eqb (call_name c) n) eqn:E.
  - apply String.eqb_eq in E. subst n.
    destruct (call_outcome c); [apply lookup_insert_eq|reflexivity].
  - apply String.eqb_neq in E.
    destruct (call_outcome c); [apply lookup_insert_ne; exact E|reflexivity].
Qed.

(** X1.  After a [load_schema] call that returns, [get_model] under the
    same schema name returns every model of the returned mapping, and
    leaves the registry as it is. *)
Theorem load_then_get (env : environment) (name file_path : string)
    (base_path : option string) (self self' : registry)
    (models : gmap string model) :
  load_schema env name file_path base_path self = (Ok models, self') ->
  forall model_name m, models !! model_name = Some m ->
    get_model name model_name self' = (Ok m, self').
Proof.
  intros Hload model_name m Hm. rewrite load_schema_run in Hload.
  injection Hload as Hout Hleaves. rewrite Hout in Hleaves.
  simpl in Hleaves. subst self'.
  unfold get_model. rewrite lookup_insert_eq, Hm. reflexivity.
Qed.

Lemma load_then_get_witness :
  get_model "Person" "address" (<["Person" := person_models]> ∅)
  = (Ok (Compiled person_address), <["Person" := person_models]> ∅).
Proof.
  apply (load_then_get sample_env "Person" "person.json" (Some "schemas") ∅
           (<["Person" := person_models]> ∅) person_models).
  - vm_compute. reflexivity.
  - vm_compute. reflexivity.
Defined.

(** X2.  A [load_schema] call that raises, whatever the reason (missing
    file, extension, unreadable or malformed document, a schema the
    compiler rejects, a module that cannot be imported or executed),
    leaves the registry as it was: every later [get_model] answers as
    before, also under the name of the failed call. *)
Theorem failed_load_keeps_registry (env : environment) (name file_path : string)
    (base_path : option string) (self self' : registry) (e : py_exn) :
  load_schema env name file_path base_path self = (Err e, self') ->
  self' = self /\
  forall schema_name model_name,
    get_model schema_name model_name self' = get_model schema_name model_name self.
Proof.
  intros Hload. rewrite load_schema_run in Hload.
  injection Hload as Hout Hleaves. rewrite Hout in Hleaves.
  simpl in Hleaves. subst self'. split; reflexivity.
Qed.

Lemma failed_load_keeps_registry_witness :
  (<["Person" := person_models]> ∅ : registry) = <["Person" := person_models]> ∅ /\
  forall schema_name model_name,
    get_model schema_name model_name (<["Person" := person_models]> ∅)
    = get_model schema_name model_name (<["Person" := person_models]> ∅).
Proof.
  apply (failed_load_keeps_registry sample_env "Person" "itinerary.json"
           (Some "schemas") (<["Person" := person_models]> ∅)
           (<["Person" := person_models]> ∅)
           (FileNotFoundError "Schema file not found: schemas/itinerary.json")).
  vm_compute. reflexivity.
Defined.

(** X3.  A [load_schema] call that returns changes the entry of its own
    schema name only: under any other schema name [get_model] gives the
    result it gave before the call. *)
Theorem load_keeps_other_schemas (env : environment) (name file_path : string)
    (base_path : option string) (self self' : registry)
    (models : gmap string model) :
  load_schema env name file_path base_path self = (Ok models, self') ->
  forall schema_name model_name, schema_name <> name ->
    self' !! schema_name = self !! schema_name /\
    fst (get_model schema_name model_name self')
    = fst (get_model schema_name model_name self).
Proof.
  intros Hload schema_name model_name Hne. rewrite load_schema_run in Hload.
  injection Hload as Hout Hleaves. rewrite Hout in Hleaves.
  simpl in Hleaves. subst self'.
  assert (H : (<[name := models]> self : registry) !! schema_name
              = self !! schema_name)
    by (apply lookup_insert_ne; congruence).
  split; [exact H|]. unfold get_model. rewrite H.
  destruct (self !! schema_name) as [ms|]; [|reflexivity].
  destruct (ms !! model_name); reflexivity.
Qed.

Lemma load_keeps_other_schemas_witness :
  (<["Empty" := ∅]> (<["Person" := person_models]> ∅) : registry) !! "Person"
  = (<["Person" := person_models]> ∅ : registry) !! "Person" /\
  fst (get_model "Person" "address"
         (<["Empty" := ∅]> (<["Person" := person_models]> ∅)))
  = fst (get_model "Person" "address" (<["Person" := person_models]> ∅)).
Proof.
  apply (load_keeps_other_schemas sample_env "Empty" "empty.json" (Some "schemas")
           (<["Person" := person_models]> ∅)
           (<["Empty" := ∅]> (<["Person" := person_models]> ∅)) ∅).
  - vm_compute. reflexivity.
  - discriminate.
Defined.

(** X4.  After any history of [load_schema] calls on a fresh registry, the
    registry holds under a schema name exactly the mapping returned by the
    most recent call that loaded that name, and no entry when no call did:
    calls that raised and calls under other names leave no trace. *)
Theorem registry_holds_last_load (history : list load_call) (name : string) :
  registry_after history !! name = last_loaded history name.
Proof.
  unfold registry_after. rewrite registry_after_from.
  destruct (last_loaded history name); [reflexivity|apply lookup_empty].
Qed.


(** * Further properties of the compiler *)

Lemma of_pairs_distinct {V : Type} (pairs : list (string * V)) :
  List.NoDup (PyDict.keys pairs) -> PyDict.of_pairs pairs = pairs.
Proof.
  unfold PyDict.of_pairs.
  assert (Hgen : forall acc,
    List.NoDup (PyDict.keys (acc ++ pairs)%list) ->
    fold_left (fun d kv => PyDict.set d (fst kv) (snd kv)) pairs acc
    = (acc ++ pairs)%list).
  { induction pairs as [|[k v] pairs IH]; intros acc Hnd; simpl.
    - rewrite app_nil_r. reflexivity.
    - assert (Hfresh : ~ In k (PyDict.keys acc)).
      { unfold PyDict.keys in *. rewrite map_app in Hnd. simpl in Hnd.
        apply List.NoDup_remove_2 in Hnd. intros Hin. apply Hnd.
        apply in_or_app. left; exact Hin. }
      rewrite set_fresh by exact Hfresh. rewrite IH.
      + rewrite <- app_assoc. reflexivity.
      + rewrite <- app_assoc. exact Hnd. }
  intros Hnd. apply (Hgen []). exact Hnd.
Qed.

Lemma json_models_stages (name : string) (d : list (string * json))
    (models : gmap string model) :
  json_models name (JObj d) = Ok models ->
  exists models1 : gmap string model,
    match PyDict.get d "properties" with
    | None => models1 = ∅
    | Some properties =>
        exists props root, properties = JObj props /\
          _json_schema_to_pydantic (JObj d) = Ok root /\
          foldM root_property_model (PyDict.of_pairs props)
            (<[name := Compiled root]> ∅) = Ok models1
    end /\
    match PyDict.get d "definitions" with
    | None => models = models1
    | Some definitions =>
        exists defs, definitions = JObj defs /\
          foldM definition_model (PyDict.of_pairs defs) models1 = Ok models
    end.
Proof.
  destruct (PyDict.get d "properties") as [v|] eqn:Hget.
  - intros Hrun.
    assert (Hhas : PyDict.has d "properties" = true)
      by (unfold PyDict.has; rewrite Hget; reflexivity).
    destruct (properties_is_object _ _ _ Hhas Hrun) as (props & Hprops).
    destruct (json_models_inv _ _ _ _ Hprops Hrun)
      as (root & models1 & Hroot & Hloop & Hdefs).
    exists models1. split; [|exact Hdefs].
    exists props, root. split; [congruence|]. auto.
  - unfold json_models. simpl. unfold PyDict.has. rewrite Hget. simpl.
    intros Hrun. exists ∅. split; [reflexivity|].
    destruct (PyDict.get d "definitions") as [definitions|]; simpl in Hrun.
    + apply bind_Ok in Hrun as (items & Hitems & Hrun).
      destruct definitions as [| | | | | |defs]; try discriminate.
      injection Hitems as <-. exists defs. auto.
    + congruence.
Qed.

Lemma root_loop_domain (props : list (string * json))
    (init models1 : gmap string model) (k : string) :
  foldM root_property_model (PyDict.of_pairs props) init = Ok models1 ->
  is_Some (models1 !! k) <->
  is_Some (init !! k) \/
  exists p, PyDict.get props k = Some p /\ object_with_properties p = true.
Proof.
  intros Hloop. destruct (PyDict.get props k) as [p|] eqn:Hget.
  - destruct (object_with_properties p) eqn:Hnested.
    + destruct (root_loop_nested _ _ _ _ _ Hloop Hget Hnested) as (m & _ & ->).
      split; [intros _; right; exists p; auto|intros _; eexists; reflexivity].
    + rewrite (root_loop_kept _ _ _ k Hloop) by (intros q Hq; congruence).
      split; [intros H; left; exact H|].
      intros [H|(q & Hq & Hq')]; [exact H|congruence].
  - rewrite (root_loop_kept _ _ _ k Hloop) by (intros q Hq; congruence).
    split; [intros H; left; exact H|].
    intros [H|(q & Hq & _)]; [exact H|discriminate].
Qed.

Lemma definitions_loop_domain (defs : list (string * json))
    (models1 models : gmap string model) (k : string) :
  foldM definition_model (PyDict.of_pairs defs) models1 = Ok models ->
  is_Some (models !! k) <->
  is_Some (models1 !! k) \/ is_Some (PyDict.get defs k).
Proof.
  intros Hloop. destruct (PyDict.get defs k) as [s|] eqn:Hget.
  - destruct (definitions_loop_named _ _ _ _ _ Hloop Hget) as (m & _ & ->).
    split; [intros _; right; eexists; reflexivity|intros _; eexists; reflexivity].
  - rewrite (definitions_loop_kept _ _ _ _ Hloop Hget).
    split; [intros H; left; exact H|].
    intros [H|[s Hs]]; [exact H|discriminate].
Qed.

(** X6.  Every definition of a compiled document is in the mapping under
    its own name, as the descriptor compiled from its schema: the root
    model and the models of the root properties never take the place of a
    definition. *)
Theorem definitions_are_models (name k : string) (d : list (string * json))
    (definitions s : json) (models : gmap string model) :
  json_models name (JObj d) = Ok models ->
  PyDict.get d "definitions" = Some definitions ->
  exists defs, definitions = JObj defs /\
    (PyDict.get defs k = Some s ->
     exists m, _json_schema_to_pydantic s = Ok m /\
               models !! k = Some (Compiled m)).
Proof.
  intros Hrun Hget.
  destruct (json_models_stages _ _ _ Hrun) as (models1 & _ & Hdefs).
  rewrite Hget in Hdefs. destruct Hdefs as (defs & -> & Hloop).
  exists defs. split; [reflexivity|].
  intros Hs. exact (definitions_loop_named _ _ _ _ _ Hloop Hs).
Qed.

Lemma definitions_are_models_witness :
  exists defs,
    JObj [("a", JObj [("properties",
                        JObj [("y", JObj [("type", JStr "integer")])])])]
    = JObj defs /\
    (PyDict.get defs "a"
     = Some (JObj [("properties", JObj [("y", JObj [("type", JStr "integer")])])]) ->
     exists m,
       _json_schema_to_pydantic
         (JObj [("properties", JObj [("y", JObj [("type", JStr "integer")])])])
       = Ok m /\
       (<["a" := Compiled collision_definition]>
          (<["Root" := Compiled (Descriptor "DynamicModel"
                                   [FieldSpec "a" (TModel collision_nested) false
                                      (Some JNull) None])]> ∅)
        : gmap string model) !! "a" = Some (Compiled m)).
Proof.
  apply (definitions_are_models "Root" "a"
           [("properties",
              JObj [("a", JObj [("type", JStr "object");
                                ("properties",
                                  JObj [("x", JObj [("type", JStr "string")])])])]);
            ("definitions",
              JObj [("a", JObj [("properties",
                                  JObj [("y", JObj [("type", JStr "integer")])])])])]).
  - vm_compute. reflexivity.
  - reflexivity.
Defined.

(** X7.  The names of the mapping compiled from a document are exactly:
    the root name when the document has a [properties] member, the names
    of the root properties that are objects of type "object" with a
    [properties] member, and the names of the definitions.  A property of
    any other kind, and an object nested more deeply, gets no model of its
    own. *)
Theorem models_names (name : string) (d : list (string * json))
    (models : gmap string model) :
  json_models name (JObj d) = Ok models ->
  forall k,
    is_Some (models !! k) <->
    (PyDict.has d "properties" = true /\ k = name) \/
    (exists props p,
       PyDict.get d "properties" = Some (JObj props) /\
       PyDict.get props k = Some p /\ object_with_properties p = true) \/
    (exists defs s,
       PyDict.get d "definitions" = Some (JObj defs) /\
       PyDict.get defs k = Some s).
Proof.
  intros Hrun k.
  destruct (json_models_stages _ _ _ Hrun) as (models1 & Hroot & Hdefs).
  assert (H1 : is_Some (models1 !! k) <->
    (PyDict.has d "properties" = true /\ k = name) \/
    (exists props p,
       PyDict.get d "properties" = Some (JObj props) /\
       PyDict.get props k = Some p /\ object_with_properties p = true)).
  { unfold PyDict.has. destruct (PyDict.get d "properties") as [v|].
    - destruct Hroot as (props & root & -> & _ & Hloop).
      rewrite (root_loop_domain _ _ _ k Hloop). split.
      + intros [[m Hm]|(p & Hp & Hn)].
        * left. split; [reflexivity|].
          destruct (decide (name = k)) as [->|Hne]; [reflexivity|].
          rewrite lookup_insert_ne, lookup_empty in Hm by exact Hne. discriminate.
        * right. exists props, p. auto.
      + intros [[_ ->]|(props' & p & [= <-] & Hp & Hn)].
        * left. rewrite lookup_insert_eq. eexists; reflexivity.
        * right. exists p. auto.
    - subst models1. rewrite lookup_empty. split.
      + intros [m Hm]. discriminate.
      + intros [[H _]|(props & p & H & _)]; discriminate. }
  destruct (PyDict.get d "definitions") as [v|].
  - destruct Hdefs as (defs & -> & Hloop).
    rewrite (definitions_loop_domain _ _ _ k Hloop), H1. split.
    + intros [[H|H]|[s Hs]]; [tauto|tauto|].
      right; right. exists defs, s. auto.
    + intros [H|[H|(defs' & s & [= <-] & Hs)]]; [tauto|tauto|].
      right. eexists; exact Hs.
  - subst models. rewrite H1. split.
    + intros [H|H]; tauto.
    + intros [H|[H|(defs & s & H & _)]]; [tauto|tauto|discriminate].
Qed.

Lemma models_names_witness :
  is_Some (person_models !! "address") <->
  (PyDict.has person_members "properties" = true /\ "address" = "Person") \/
  (exists props p,
     PyDict.get person_members "properties" = Some (JObj props) /\
     PyDict.get props "address" = Some p /\ object_with_properties p = true) \/
  (exists defs s,
     PyDict.get person_members "definitions" = Some (JObj defs) /\
     PyDict.get defs "address" = Some s).
Proof.
  apply (models_names "Person" person_members person_models).
  vm_compute. reflexivity.
Defined.

Lemma property_info_facts self_type required k p fi :
  property_info self_type required k p = Ok fi ->
  exists b description,
    py_contains k required = Ok b /\
    fi_default fi = (if b : bool then Ellipsis else PyNone) /\
    py_get_default p "description" (JStr "") = Ok description /\
    fi_description fi = (if truthy description then Some description else None).
Proof.
  unfold property_info. intros H.
  apply bind_Ok in H as (t & _ & H). apply bind_Ok in H as (b & Hb & H).
  apply bind_Ok in H as (description & Hd & H).
  exists b, description. destruct (truthy description); injection H as <-; auto.
Qed.

Lemma field_facts_of (k : string) (fi : field_info) :
  field_description (fieldspec_of (k, fi)) = fi_description fi /\
  field_required (fieldspec_of (k, fi))
  = match fi_default fi with Ellipsis => true | PyNone => false end /\
  field_default (fieldspec_of (k, fi))
  = match fi_default fi with Ellipsis => None | PyNone => Some JNull end.
Proof. unfold fieldspec_of. destruct (fi_default fi); auto. Qed.

(** Whether the field of a property is mandatory is the answer of
    [prop_name in required], whatever kind of value [required] is. *)
Lemma required_by_membership (d props : list (string * json)) (desc : descriptor)
    (k : string) (p : json) :
  PyDict.get d "properties" = Some (JObj props) ->
  _json_schema_to_pydantic (JObj d) = Ok desc ->
  PyDict.get props k = Some p ->
  exists f b,
    find_field desc k = Some f /\
    py_contains k (default (JArr []) (PyDict.get d "required")) = Ok b /\
    field_required f = b /\
    field_default f = (if b : bool then None else Some JNull).
Proof.
  intros Hprops Hrun Hget.
  destruct (compiled_fields _ _ _ Hprops Hrun) as (_ & _ & Hfields).
  destruct (Hfields _ _ Hget) as (fi & Hinfo & Hfind).
  apply property_info_facts in Hinfo as (b & description & Hb & Hdefault & _).
  exists (fieldspec_of (k, fi)), b. split; [exact Hfind|]. split; [exact Hb|].
  destruct (field_facts_of k fi) as (_ & -> & ->). rewrite Hdefault.
  destruct b; auto.
Qed.

(** X8.  The fields of a compiled descriptor are the properties of the
    schema in document order, a name written more than once counting once
    at its first place; a schema without [properties] compiles to a
    descriptor without fields. *)
Theorem fields_in_document_order (d : list (string * json)) (desc : descriptor) :
  _json_schema_to_pydantic (JObj d) = Ok desc ->
  (PyDict.get d "properties" = None -> descriptor_fields desc = []) /\
  (forall props, PyDict.get d "properties" = Some (JObj props) ->
     map field_name (descriptor_fields desc) = PyDict.keys (PyDict.of_pairs props) /\
     (List.NoDup (PyDict.keys props) ->
      map field_name (descriptor_fields desc) = PyDict.keys props)).
Proof.
  intros Hrun. split.
  - intros Hnone. rewrite _json_schema_to_pydantic_eq in Hrun.
    unfold schema_fields in Hrun. simpl in Hrun. unfold PyDict.has in Hrun.
    rewrite Hnone in Hrun. simpl in Hrun. injection Hrun as <-. reflexivity.
  - intros props Hprops.
    destruct (compiled_fields _ _ _ Hprops Hrun) as (_ & Horder & _).
    split; [exact Horder|]. intros Hnd.
    rewrite Horder, (of_pairs_distinct _ Hnd). reflexivity.
Qed.

Lemma fields_in_document_order_witness :
  (PyDict.get person_members "properties" = None ->
   descriptor_fields person_root = []) /\
  (forall props, PyDict.get person_members "properties" = Some (JObj props) ->
     map field_name (descriptor_fields person_root)
     = PyDict.keys (PyDict.of_pairs props) /\
     (List.NoDup (PyDict.keys props) ->
      map field_name (descriptor_fields person_root) = PyDict.keys props)).
Proof.
  apply (fields_in_document_order person_members person_root). reflexivity.
Defined.

(** X9.  The field of a property carries the [description] of the property
    schema when that value is truthy, and no description when the member
    is missing or falsy (the empty string, [null], [0], an empty list or
    object). *)
Theorem description_kept (d props pd : list (string * json)) (desc : descriptor)
    (k : string) :
  PyDict.get d "properties" = Some (JObj props) ->
  _json_schema_to_pydantic (JObj d) = Ok desc ->
  PyDict.get props k = Some (JObj pd) ->
  exists f,
    find_field desc k = Some f /\
    field_description f =
      match PyDict.get pd "description" with
      | Some description => if truthy description then Some description else None
      | None => None
      end.
Proof.
  intros Hprops Hrun Hget.
  destruct (compiled_fields _ _ _ Hprops Hrun) as (_ & _ & Hfields).
  destruct (Hfields _ _ Hget) as (fi & Hinfo & Hfind).
  apply property_info_facts in Hinfo as (b & description & _ & _ & Hd & Hdesc).
  exists (fieldspec_of (k, fi)). split; [exact Hfind|].
  destruct (field_facts_of k fi) as (-> & _). rewrite Hdesc.
  simpl in Hd. injection Hd as <-.
  destruct (PyDict.get pd "description"); reflexivity.
Qed.

Lemma description_kept_witness :
  exists f,
    find_field
      (Descriptor "DynamicModel"
         [FieldSpec "age" TInt false (Some JNull) (Some (JStr "Age in years"));
          FieldSpec "nick" TStr false (Some JNull) None]) "age" = Some f /\
    field_description f =
      match PyDict.get [("type", JStr "integer");
                        ("description", JStr "Age in years")] "description" with
      | Some description => if truthy description then Some description else None
      | None => None
      end.
Proof.
  apply (description_kept
           [("properties",
              JObj [("age", JObj [("type", JStr "integer");
                                  ("description", JStr "Age in years")]);
                    ("nick", JObj [("type", JStr "string");
                                   ("description", JStr "")])])]
           [("age", JObj [("type", JStr "integer");
                          ("description", JStr "Age in years")]);
            ("nick", JObj [("type", JStr "string"); ("description", JStr "")])]
           [("type", JStr "integer"); ("description", JStr "Age in years")]);
    reflexivity.
Defined.

(** X10.  When a schema that compiles has no [required] member, every one
    of its properties becomes an optional field with the default [None]. *)
Theorem no_required_all_optional (d props : list (string * json))
    (desc : descriptor) :
  PyDict.get d "properties" = Some (JObj props) ->
  PyDict.get d "required" = None ->
  _json_schema_to_pydantic (JObj d) = Ok desc ->
  forall k p, PyDict.get props k = Some p ->
    exists f, find_field desc k = Some f /\
              field_required f = false /\ field_default f = Some JNull.
Proof.
  intros Hprops Hreq Hrun k p Hget.
  destruct (required_by_membership _ _ _ _ _ Hprops Hrun Hget)
    as (f & b & Hfind & Hb & Hr & Hd).
  rewrite Hreq in Hb. simpl in Hb. injection Hb as <-.
  exists f. auto.
Qed.

Lemma no_required_all_optional_witness :
  exists f, find_field person_address "city" = Some f /\
            field_required f = false /\ field_default f = Some JNull.
Proof.
  apply (no_required_all_optional address_members
           [("city", JObj [("type", JStr "string")])] person_address
           eq_refl eq_refl eq_refl "city" (JObj [("type", JStr "string")]) eq_refl).
Defined.

(** X11.  [required] is tested with [in], so its kind matters: when it is
    a string and not a list, a property is mandatory exactly when its name
    occurs in that string as a substring; when it is an object, exactly
    when its name is one of the keys. *)
Theorem required_of_another_kind (d props : list (string * json))
    (desc : descriptor) (k : string) (p : json) :
  PyDict.get d "properties" = Some (JObj props) ->
  _json_schema_to_pydantic (JObj d) = Ok desc ->
  PyDict.get props k = Some p ->
  exists f, find_field desc k = Some f /\
    (forall s, PyDict.get d "required" = Some (JStr s) ->
               field_required f = is_substring k s) /\
    (forall o, PyDict.get d "required" = Some (JObj o) ->
               field_required f = PyDict.has o k).
Proof.
  intros Hprops Hrun Hget.
  destruct (required_by_membership _ _ _ _ _ Hprops Hrun Hget)
    as (f & b & Hfind & Hb & Hr & _).
  exists f. split; [exact Hfind|]. split.
  - intros s Hs. rewrite Hs in Hb. simpl in Hb. congruence.
  - intros o Ho. rewrite Ho in Hb. simpl in Hb. congruence.
Qed.

Lemma required_of_another_kind_witness :
  exists f,
    find_field
      (Descriptor "DynamicModel" [FieldSpec "name" TStr true None None]) "name"
    = Some f /\
    (forall s, PyDict.get [("properties", JObj [("name", JObj [("type", JStr "string")])]);
                           ("required", JStr "surname")] "required"
               = Some (JStr s) ->
               field_required f = is_substring "name" s) /\
    (forall o, PyDict.get [("properties", JObj [("name", JObj [("type", JStr "string")])]);
                           ("required", JStr "surname")] "required"
               = Some (JObj o) ->
               field_required f = PyDict.has o "name").
Proof.
  apply (required_of_another_kind
           [("properties", JObj [("name", JObj [("type", JStr "string")])]);
            ("required", JStr "surname")]
           [("name", JObj [("type", JStr "string")])]
           (Descriptor "DynamicModel" [FieldSpec "name" TStr true None None])
           "name" (JObj [("type", JStr "string")])); reflexivity.
Defined.

Lemma bind_Err {A B : Type} (r : result A) (f : A -> result B) (e : py_exn) :
  r ≫= f = Err e -> r = Err e \/ exists a, r = Ok a /\ f a = Err e.
Proof. destruct r as [a|e']; simpl; [eauto|intros [= ->]; auto]. Qed.

Lemma py_contains_Err k c e : py_contains k c = Err e -> builtin_error e.
Proof. destruct c; simpl; intros [= <-]; left; reflexivity. Qed.

Lemma py_get_default_Err c k dflt e :
  py_get_default c k dflt = Err e -> builtin_error e.
Proof. destruct c; simpl; intros [= <-]; right; reflexivity. Qed.

Lemma py_items_Err c e : py_items c = Err e -> builtin_error e.
Proof. destruct c; simpl; intros [= <-]; right; reflexivity. Qed.

(** A subscript behind its membership test never raises [KeyError]. *)
Lemma py_getitem_guarded k c e :
  py_contains k c = Ok true -> py_getitem c k = Err e -> builtin_error e.
Proof.
  destruct c as [| | | | | |d]; simpl; try (intros _ [= <-]; left; reflexivity).
  unfold PyDict.has. destruct (PyDict.get d k); [discriminate|].
  intros [=].
Qed.

Lemma root_property_model_Err acc prop e :
  root_property_model acc prop = Err e -> builtin_error e.
Proof.
  destruct prop as [k p]. unfold root_property_model.
  intros H. apply bind_Err in H as [H|(t & _ & H)];
    [exact (py_get_default_Err _ _ _ _ H)|].
  destruct (json_is_str t "object"); [|discriminate].
  apply bind_Err in H as [H|([|] & _ & H)];
    [exact (py_contains_Err _ _ _ H)| |discriminate].
  apply bind_Err in H as [H|(m & _ & H)]; [|discriminate].
  exact (_json_schema_to_pydantic_Err _ _ H).
Qed.

Lemma definition_model_Err acc def e :
  definition_model acc def = Err e -> builtin_error e.
Proof.
  destruct def as [k s]. unfold definition_model.
  intros H. apply bind_Err in H as [H|(m & _ & H)]; [|discriminate].
  exact (_json_schema_to_pydantic_Err _ _ H).
Qed.

(** X12.  Whatever the parsed document is, the compiler raises nothing but
    [TypeError] and [AttributeError], the exceptions of the built-in
    operations applied to a value that is not an object; each subscript
    stands behind its membership test, so no [KeyError] arises. *)
Theorem compiler_exceptions (name : string) (schema_data : json) (e : py_exn) :
  (_json_type_to_python schema_data = Err e -> builtin_error e) /\
  (_json_schema_to_pydantic schema_data = Err e -> builtin_error e) /\
  (json_models name schema_data = Err e -> builtin_error e).
Proof.
  split; [apply _json_type_to_python_Err|].
  split; [apply _json_schema_to_pydantic_Err|].
  unfold json_models. intros H.
  apply bind_Err in H as [H|(has_properties & _ & H)];
    [exact (py_contains_Err _ _ _ H)|].
  apply bind_Err in H as [H|(models1 & _ & H)].
  - destruct has_properties; [|discriminate].
    apply bind_Err in H as [H|(root & _ & H)];
      [exact (_json_schema_to_pydantic_Err _ _ H)|].
    apply bind_Err in H as [H|(properties & _ & H)];
      [exact (py_get_default_Err _ _ _ _ H)|].
    apply bind_Err in H as [H|(items & _ & H)]; [exact (py_items_Err _ _ H)|].
    apply foldM_Err in H as (acc & prop & _ & H).
    exact (root_property_model_Err _ _ _ H).
  - apply bind_Err in H as [H|([|] & Hhas & H)];
      [exact (py_contains_Err _ _ _ H)| |discriminate].
    apply bind_Err in H as [H|(definitions & _ & H)];
      [exact (py_getitem_guarded _ _ _ Hhas H)|].
    apply bind_Err in H as [H|(items & _ & H)]; [exact (py_items_Err _ _ H)|].
    apply foldM_Err in H as (acc & def & _ & H).
    exact (definition_model_Err _ _ _ H).
Qed.

Lemma compiler_exceptions_witness :
  json_models "Person" (JObj [("properties", JObj [("age", JStr "integer")])])
  = Err AttributeError /\
  builtin_error AttributeError.
Proof.
  split; [vm_compute; reflexivity|].
  destruct (compiler_exceptions "Person"
              (JObj [("properties", JObj [("age", JStr "integer")])])
              AttributeError) as (_ & _ & H).
  apply H. vm_compute. reflexivity.
Defined.

Lemma foldM_fails {A B : Type} (step : A -> B -> result A) (xs : list B) (x : B) :
  In x xs -> (forall acc, exists e, step acc x = Err e) ->
  forall acc, exists e, foldM step xs acc = Err e.
Proof.
  intros Hin Hx. induction xs as [|y xs IH]; [destruct Hin|].
  intros acc. simpl. destruct Hin as [->|Hin].
  - destruct (Hx acc) as (e & ->). simpl. eauto.
  - destruct (step acc y) as [acc'|e]; simpl; [apply IH, Hin|eauto].
Qed.

(** X13.  A property whose schema is not an object (a bare type name such
    as ["age": "integer"], a list, [null]) makes the compilation of the
    enclosing schema raise, and with it the compilation of a document of
    which that schema is the root; the exception is a [TypeError] or an
    [AttributeError]. *)
Theorem malformed_property_fails (name k : string) (d props : list (string * json))
    (p : json) :
  PyDict.get d "properties" = Some (JObj props) ->
  PyDict.get props k = Some p ->
  (forall pd, p <> JObj pd) ->
  exists e, builtin_error e /\
            _json_schema_to_pydantic (JObj d) = Err e /\
            json_models name (JObj d) = Err e.
Proof.
  intros Hprops Hget Hbad.
  assert (Hfail : exists e, _json_schema_to_pydantic (JObj d) = Err e).
  { rewrite _json_schema_to_pydantic_eq. unfold schema_fields. simpl.
    unfold PyDict.has. rewrite Hprops. simpl.
    destruct (foldM_fails
                (property_field _json_type_to_python
                   (default (JArr []) (PyDict.get d "required")))
                (PyDict.of_pairs props) (k, p)) with (acc := @nil (string * field_info))
      as (e & ->).
    - apply of_pairs_In. exact Hget.
    - intros acc. unfold property_field, property_info. simpl.
      rewrite _json_type_to_python_eq. unfold _json_type_to_python_with.
      destruct p as [| | | | | |pd]; simpl; eauto.
      exfalso. apply (Hbad pd). reflexivity.
    - simpl. eauto. }
  destruct Hfail as (e & He). exists e.
  split; [exact (_json_schema_to_pydantic_Err _ _ He)|]. split; [exact He|].
  unfold json_models. simpl. unfold PyDict.has. rewrite Hprops. simpl.
  rewrite He. reflexivity.
Qed.

Lemma malformed_property_fails_witness :
  exists e, builtin_error e /\
    _json_schema_to_pydantic
      (JObj [("properties", JObj [("age", JStr "integer")])]) = Err e /\
    json_models "Person"
      (JObj [("properties", JObj [("age", JStr "integer")])]) = Err e.
Proof.
  apply (malformed_property_fails "Person" "age"
           [("properties", JObj [("age", JStr "integer")])]
           [("age", JStr "integer")] (JStr "integer")).
  - reflexivity.
  - reflexivity.
  - discriminate.
Defined.

Lemma person_doc_well_formed : well_formed_document person_members.
Proof.
  assert (Hleaf : forall t, well_formed (JObj [("type", JStr t)])).
  { intros t. constructor.
    - intros v H. discriminate H.
    - intros props k p H. discriminate H.
    - intros v H. discriminate H.
    - intros v H. discriminate H. }
  assert (Haddress : well_formed (JObj address_members)).
  { constructor.
    - intros v H. injection H as <-. eexists; reflexivity.
    - intros props k p H Hk. injection H as <-.
      apply get_In in Hk. destruct Hk as [[= <- <-]|[]]. apply Hleaf.
    - intros v H. discriminate H.
    - intros v H. discriminate H. }
  split.
  - constructor.
    + intros v H. injection H as <-. eexists; reflexivity.
    + intros props k p H Hk. injection H as <-.
      apply get_In in Hk. destruct Hk as [[= <- <-]|[[= <- <-]|[]]];
        [apply Hleaf|exact Haddress].
    + intros v H. injection H as <-. eexists; reflexivity.
    + intros v H. discriminate H.
  - intros v H. discriminate H.
Qed.

(** X14.  Loading a ".json" file whose document is well formed (every
    schema an object, every [properties] an object of schemas, every
    [required] a list, every [items] a schema, [definitions] an object of
    schemas) returns: it raises nothing, and stores the compiled mapping
    under the schema name. *)
Theorem well_formed_document_loads (env : environment) (name file_path : string)
    (base_path : option string) (d : list (string * json)) (self : registry) :
  let path := resolved_path env file_path base_path in
  path_exists env path = true ->
  lower (snd (path_splitext env path)) = ".json" ->
  read_json env path = Ok (JObj d) ->
  well_formed_document d ->
  exists models,
    json_models name (JObj d) = Ok models /\
    load_schema env name file_path base_path self
    = (Ok models, <[name := models]> self).
Proof.
  intros path Hexists Hext Hread Hwf.
  destruct (well_formed_document_compiles name d Hwf) as (models & Hmodels).
  exists models. split; [exact Hmodels|].
  unfold load_schema. fold path. rewrite Hexists, Hext. simpl.
  rewrite _load_json_schema_run. rewrite Hread. simpl. rewrite Hmodels.
  reflexivity.
Qed.

Lemma well_formed_document_loads_witness :
  exists models,
    json_models "Person" (JObj person_members) = Ok models /\
    load_schema sample_env "Person" "person.json" (Some "schemas") ∅
    = (Ok models, <["Person" := models]> ∅).
Proof.
  apply (well_formed_document_loads sample_env "Person" "person.json"
           (Some "schemas") person_members ∅).
  - reflexivity.
  - reflexivity.
  - reflexivity.
  - exact person_doc_well_formed.
Defined.

(** * Properties of the command line *)

Lemma check_tools_all (sh : shell) (tools : list string) :
  Forall (fun t => file_exists sh t = true) tools ->
  forall tool_paths,
    check_tools sh tools tool_paths = ([], inl (tool_paths ++ tools)%list).
Proof.
  induction 1 as [|t tools Ht _ IH]; intros tool_paths; simpl.
  - rewrite app_nil_r. reflexivity.
  - rewrite Ht, IH, <- app_assoc. reflexivity.
Qed.

Lemma check_tools_missing (sh : shell) (found : list string) (missing : string)
    (others : list string) :
  Forall (fun t => file_exists sh t = true) found ->
  file_exists sh missing = false ->
  forall tool_paths,
    check_tools sh (found ++ missing :: others) tool_paths
    = ([Print (ToolNotFound missing)], inr (Exit 1)).
Proof.
  induction 1 as [|t found Ht _ IH]; intros Hmissing tool_paths; simpl.
  - rewrite Hmissing. reflexivity.
  - rewrite Ht. apply IH, Hmissing.
Qed.

(** X15.  [run] checks its files before anything else: without the
    configuration file it prints that and exits with code 1 without looking
    at the tools; with it, the first tool file that does not exist is
    reported and the command exits with code 1.  In both cases no
    environment variable is set, no script is written and nothing is run. *)
Theorem run_refuses_missing_files (sh : shell) (config : string)
    (tools : option (list string)) (verbose : bool) :
  (file_exists sh config = false ->
   run sh config tools verbose
   = ([Banner; Print (ConfigNotFound config)], inr (Exit 1))) /\
  (file_exists sh config = true ->
   forall found missing others,
     tools = Some (found ++ missing :: others)%list ->
     Forall (fun t => file_exists sh t = true) found ->
     file_exists sh missing = false ->
     run sh config tools verbose
     = ([Banner; Print (ToolNotFound missing)], inr (Exit 1))).
Proof.
  unfold run. split.
  - intros ->. reflexivity.
  - intros -> found missing others -> Hfound Hmissing. simpl.
    rewrite (check_tools_missing sh found missing others Hfound Hmissing).
    reflexivity.
Qed.

Lemma run_refuses_missing_files_witness :
  run sample_shell "agent.yaml" None false
  = ([Banner; Print (ConfigNotFound "agent.yaml")], inr (Exit 1)) /\
  run sample_shell "config.agent.yaml"
    (Some ["tools/search.py"; "tools/mail.py"; "tools/search.py"]) true
  = ([Banner; Print (ToolNotFound "tools/mail.py")], inr (Exit 1)).
Proof.
  split.
  - apply (run_refuses_missing_files sample_shell "agent.yaml" None false).
    reflexivity.
  - apply (run_refuses_missing_files sample_shell "config.agent.yaml"
             (Some ["tools/search.py"; "tools/mail.py"; "tools/search.py"]) true)
      with (found := ["tools/search.py"]) (others := ["tools/search.py"]).
    + reflexivity.
    + reflexivity.
    + repeat constructor.
    + reflexivity.
Defined.

Ltac split_last_event :=
  match goal with
  | |- exists events, ?l = (events ++ [?u])%list /\ _ =>
      exists (removelast l); split; [reflexivity|]
  end.

(** X16.  Once [_run] has written its temporary script, deleting it is the
    last thing it does, whether the development server returned (with any
    code), could not be started, or was interrupted; the outcome of [_run]
    is then that of the server run.  When the script cannot be written,
    nothing is run and nothing is deleted. *)
Theorem script_is_deleted (sh : shell) (config_path : string)
    (tool_files : list string) (verbose : bool) :
  (forall path,
     make_script sh config_path verbose = inl path ->
     unlink sh path = None ->
     exists events,
       fst (_run sh config_path tool_files verbose)
       = (events ++ [Unlink path])%list /\
       snd (_run sh config_path tool_files verbose)
       = match run_script sh path with
         | inl _ => inl tt
         | inr e => inr e
         end) /\
  (forall e,
     make_script sh config_path verbose = inr e ->
     snd (_run sh config_path tool_files verbose) = inr e /\
     forall path,
       ~ In (RunScript path) (fst (_run sh config_path tool_files verbose)) /\
       ~ In (Unlink path) (fst (_run sh config_path tool_files verbose))).
Proof.
  unfold _run, finally_unlink, call, emit, mbind, cli_bind, mret, cli_ret. split.
  - intros path Hmake Hunlink. rewrite Hmake.
    destruct (bool_decide (run_tool_dirs sh tool_files = ∅));
      destruct (run_script sh path) as [code|e]; cbn -[Z.eqb];
      try destruct (Z.eqb code 0 || Z.eqb code 130);
      cbn; rewrite Hunlink; cbn; split_last_event; reflexivity.
  - intros e Hmake. rewrite Hmake.
    destruct (bool_decide (run_tool_dirs sh tool_files = ∅)); cbn;
      (split; [reflexivity|]); intros path; split;
      intros [H|[]]; discriminate H.
Qed.

Lemma script_is_deleted_witness :
  exists events,
    fst (_run sample_shell "config.agent.yaml" ["tools/search.py"] false)
    = (events ++ [Unlink "/tmp/tmpq1.py"])%list /\
    snd (_run sample_shell "config.agent.yaml" ["tools/search.py"] false)
    = match run_script sample_shell "/tmp/tmpq1.py" with
      | inl _ => inl tt
      | inr e => inr e
      end.
Proof.
  destruct (script_is_deleted sample_shell "config.agent.yaml"
              ["tools/search.py"] false) as [H _].
  apply (H "/tmp/tmpq1.py"); reflexivity.
Defined.

Lemma _run_returned (sh : shell) (config_path : string) (tool_files : list string)
    (verbose : bool) (path : string) (code : Z) :
  make_script sh config_path verbose = inl path ->
  unlink sh path = None ->
  run_script sh path = inl code ->
  _run sh config_path tool_files verbose
  = ((if bool_decide (run_tool_dirs sh tool_files = ∅) then Print NoTools
      else SetToolsPath (run_tool_dirs sh tool_files))
     :: [WriteScript path config_path verbose;
         Print (WorkingDirectory (current_dir sh)); RunScript path]
     ++ (if Z.eqb code 0 || Z.eqb code 130 then []
         else [Print (ServerExited code)])
     ++ [Unlink path], inl tt)%list.
Proof.
  intros Hmake Hunlink Hcode.
  unfold _run, finally_unlink, call, emit, mbind, cli_bind, mret, cli_ret.
  rewrite Hmake.
  destruct (bool_decide (run_tool_dirs sh tool_files = ∅));
    rewrite Hcode; cbn -[Z.eqb];
    destruct (Z.eqb code 0 || Z.eqb code 130); cbn; rewrite Hunlink; reflexivity.
Qed.

(** X17.  When its files exist and the script is written and deleted,
    [run] ends normally whatever code the development server returned (a
    code other than 0 and 130 is only printed), and also when the server
    run was interrupted from the keyboard; it exits with code 1 exactly
    when the server run raised an exception that [except Exception]
    catches. *)
Theorem run_outcome (sh : shell) (config : string) (tools : list string)
    (verbose : bool) (path : string) :
  file_exists sh config = true ->
  Forall (fun t => file_exists sh t = true) tools ->
  make_script sh config verbose = inl path ->
  unlink sh path = None ->
  snd (run sh config (Some tools) verbose)
  = match run_script sh path with
    | inl _ => inl tt
    | inr KeyboardInterrupt => inl tt
    | inr e => if is_exception sh e then inr (Exit 1) else inr e
    end /\
  (forall code, run_script sh path = inl code ->
     In (Print (ServerExited code)) (fst (run sh config (Some tools) verbose))
     <-> code <> 0%Z /\ code <> 130%Z).
Proof.
  intros Hconfig Htools Hmake Hunlink.
  unfold run. rewrite Hconfig. simpl default.
  rewrite (check_tools_all sh tools Htools []). simpl app. split.
  - unfold _run, finally_unlink, call, emit, mbind, cli_bind, mret, cli_ret.
    rewrite Hmake.
    destruct (bool_decide (run_tool_dirs sh tools = ∅));
      destruct (run_script sh path) as [code|e]; cbn -[Z.eqb];
      try destruct (Z.eqb code 0 || Z.eqb code 130);
      cbn; rewrite Hunlink; cbn;
      try reflexivity;
      destruct e; cbn; try reflexivity;
      destruct (exit_is_exception sh); reflexivity.
  - intros code Hcode.
    cbv beta iota zeta delta [mbind cli_bind emit].
    rewrite (_run_returned sh config tools verbose path code Hmake Hunlink Hcode).
    cbn [fst app].
    assert (Hb : Z.eqb code 0 || Z.eqb code 130 = false
                 <-> code <> 0%Z /\ code <> 130%Z)
      by (rewrite orb_false_iff, !Z.eqb_neq; reflexivity).
    rewrite <- Hb.
    destruct (Z.eqb code 0 || Z.eqb code 130);
      destruct (bool_decide (run_tool_dirs sh tools = ∅)); simpl;
      split; intros H; try discriminate H; try tauto;
      repeat (destruct H as [H|H]; try discriminate H); destruct H.
Qed.

Lemma run_outcome_witness :
  snd (run sample_shell "config.agent.yaml" (Some ["tools/search.py"]) false)
  = match run_script sample_shell "/tmp/tmpq1.py" with
    | inl _ => inl tt
    | inr KeyboardInterrupt => inl tt
    | inr e => if is_exception sample_shell e then inr (Exit 1) else inr e
    end /\
  (forall code, run_script sample_shell "/tmp/tmpq1.py" = inl code ->
     In (Print (ServerExited code))
        (fst (run sample_shell "config.agent.yaml" (Some ["tools/search.py"]) false))
     <-> code <> 0%Z /\ code <> 130%Z).
Proof.
  apply (run_outcome sample_shell "config.agent.yaml" ["tools/search.py"] false
           "/tmp/tmpq1.py").
  - reflexivity.
  - repeat constructor.
  - reflexivity.
  - reflexivity.
Defined.

(** X18.  [_run] and [serve] collect the directories of the given tools
    alike, but treat the [tools] directory of the working directory
    differently: [_run] adds it whenever it exists, [serve] only when no
    tool was given. *)
Theorem tool_dirs_of_run_and_serve (sh : shell) (tool_paths : list string) :
  let dirs : gset string := list_to_set (map (tool_dir sh) tool_paths) in
  (file_exists sh (default_tool_dir sh) = false ->
   run_tool_dirs sh tool_paths = dirs /\ serve_tool_dirs sh tool_paths = dirs) /\
  (file_exists sh (default_tool_dir sh) = true ->
   run_tool_dirs sh tool_paths = dirs ∪ {[default_tool_dir sh]} /\
   (tool_paths = [] -> serve_tool_dirs sh tool_paths = {[default_tool_dir sh]}) /\
   (tool_paths <> [] -> serve_tool_dirs sh tool_paths = dirs)).
Proof.
  intros dirs. unfold run_tool_dirs, serve_tool_dirs. fold dirs. split.
  - intros ->. rewrite andb_false_r. split; reflexivity.
  - intros ->. rewrite andb_true_r. split; [reflexivity|]. split.
    + intros ->. subst dirs. simpl.
      rewrite bool_decide_eq_true_2 by reflexivity.
      apply (left_id_L (∅ : gset string) (∪)).
    + intros Hne. rewrite bool_decide_eq_false_2; [reflexivity|].
      destruct tool_paths as [|p rest]; [contradiction|].
      subst dirs. simpl. set_solver.
Qed.

Lemma tool_dirs_of_run_and_serve_witness :
  run_tool_dirs sample_shell ["tools/search.py"]
  = list_to_set (map (tool_dir sample_shell) ["tools/search.py"])
    ∪ {[default_tool_dir sample_shell]} /\
  (["tools/search.py"] = [] ->
   serve_tool_dirs sample_shell ["tools/search.py"]
   = {[default_tool_dir sample_shell]}) /\
  (["tools/search.py"] <> [] ->
   serve_tool_dirs sample_shell ["tools/search.py"]
   = list_to_set (map (tool_dir sample_shell) ["tools/search.py"])).
Proof.
  destruct (tool_dirs_of_run_and_serve sample_shell ["tools/search.py"]) as [_ H].
  apply H. reflexivity.
Defined.

(** X19.  [_run_tests] raises [typer.Exit] with the return code of pytest
    when that is not 0.  In [test] this [Exit], like the one raised after
    failing YAML tests, is raised inside the [try] block: when [typer.Exit]
    derives from [Exception], the handler catches it and [test] exits with
    code 1 for every failure, whatever the code of the runner; it ends
    normally exactly when the runner returned 0. *)
Theorem test_exit_code (sh : shell) (config : option string) (coverage : bool)
    (pytest_args : option (list string)) :
  exit_is_exception sh = true ->
  (file_exists sh (yaml_path_of sh config) = true ->
   forall r, run_yaml_tests sh (yaml_path_of sh config) pytest_args coverage = inl r ->
     snd (test sh config coverage pytest_args)
     = if Z.eqb r 0 then inl tt else inr (Exit 1)) /\
  (file_exists sh (yaml_path_of sh config) = false ->
   forall r, pytest sh (pytest_command pytest_args coverage) = inl r ->
     snd (_run_tests sh pytest_args coverage)
     = (if Z.eqb r 0 then inl tt else inr (Exit r)) /\
     snd (test sh config coverage pytest_args)
     = if Z.eqb r 0 then inl tt else inr (Exit 1)).
Proof.
  intros Hexit. unfold test, _run_tests, call, emit, throw, mbind, cli_bind.
  split.
  - intros -> r ->. cbn -[Z.eqb]. destruct (Z.eqb r 0); cbn; [reflexivity|].
    rewrite Hexit. reflexivity.
  - intros -> r ->. cbn -[Z.eqb]. destruct (Z.eqb r 0); cbn; [auto|].
    rewrite Hexit. auto.
Qed.

Lemma test_exit_code_witness :
  snd (_run_tests sample_shell None true)
  = (if Z.eqb 5 0 then inl tt else inr (Exit 5)) /\
  snd (test sample_shell None true None)
  = if Z.eqb 5 0 then inl tt else inr (Exit 1).
Proof.
  destruct (test_exit_code sample_shell None true None eq_refl) as [_ H].
  apply (H eq_refl 5%Z). reflexivity.
Defined.

(** X20.  When its files exist and the configuration loads, [serve] starts
    the server with the port and the number of workers given as options,
    also when such an option is 0, and with the values of the
    configuration for the options that were not given. *)
Theorem serve_options (sh : shell) (config : string) (tools : list string)
    (port workers : option Z) (config_port config_workers : Z) :
  file_exists sh config = true ->
  Forall (fun t => file_exists sh t = true) tools ->
  server_config sh config = inl (config_port, config_workers) ->
  run_server sh config (default config_port port)
    (default config_workers workers) = None ->
  snd (serve sh config (Some tools) port workers) = inl tt /\
  exists events,
    fst (serve sh config (Some tools) port workers)
    = (events ++ [RunServer config (default config_port port)
                    (default config_workers workers)])%list.
Proof.
  intros Hconfig Htools Hcfg Hserver.
  unfold serve. rewrite Hconfig.
  change (default [] (Some tools)) with tools.
  rewrite (check_tools_all sh tools Htools []). simpl app.
  unfold emit, throw, mbind, cli_bind, mret, cli_ret.
  rewrite Hcfg. cbn [fst snd]. rewrite Hserver.
  destruct (bool_decide (serve_tool_dirs sh tools = ∅)); cbn.
  - split; [reflexivity|]. eexists [_; _]. reflexivity.
  - split; [reflexivity|]. eexists [_; _; _]. reflexivity.
Qed.

Lemma serve_options_witness :
  snd (serve sample_shell "config.agent.yaml" (Some ["tools/search.py"])
         (Some 0%Z) None) = inl tt /\
  exists events,
    fst (serve sample_shell "config.agent.yaml" (Some ["tools/search.py"])
           (Some 0%Z) None)
    = (events ++ [RunServer "config.agent.yaml" (default 8000%Z (Some 0%Z))
                    (default 1%Z None)])%list.
Proof.
  apply (serve_options sample_shell "config.agent.yaml" ["tools/search.py"]
           (Some 0%Z) None 8000%Z 1%Z).
  - reflexivity.
  - repeat constructor.
  - reflexivity.
  - reflexivity.
Defined.

(** * Properties of the feedback step *)

Lemma removelast_short {A : Type} (l : list A) :
  (1 <? length l)%nat = false -> removelast l = [].
Proof.
  destruct l as [|a [|b l]]; simpl; try reflexivity. discriminate.
Qed.

Lemma history_step_back (h : list json) :
  (if (1 <? length h)%nat then py_but_last (JArr h) else Ok (JArr []))
  = Ok (JArr (removelast h)).
Proof.
  destruct (1 <? length h)%nat eqn:E; [reflexivity|].
  rewrite (removelast_short h E). reflexivity.
Qed.

Lemma context_step_back (c : list json) :
  (if truthy (JArr c) then
     m ← py_len (JArr c);
     if (1 <? m)%nat then py_but_last (JArr c) else Ok (JArr [])
   else Ok (JArr []))
  = Ok (JArr (removelast c)).
Proof.
  destruct c as [|a c]; [reflexivity|].
  change (truthy (JArr (a :: c))) with true. cbv iota.
  change (py_len (JArr (a :: c))) with (Ok (A := nat) (length (a :: c))).
  change (Ok (length (a :: c)) ≫= _)
    with (if (1 <? length (a :: c))%nat
          then py_but_last (JArr (a :: c)) else Ok (JArr [])).
  apply history_step_back.
Qed.

Lemma set_lookup (d : list (string * json)) (k : string) (v : json) :
  PyDict.get (PyDict.set (PyDict.of_pairs d) k v) k = Some v /\
  forall k', k' <> k ->
    PyDict.get (PyDict.set (PyDict.of_pairs d) k v) k' = PyDict.get d k'.
Proof.
  split.
  - rewrite get_set by apply of_pairs_NoDup. rewrite String.eqb_refl. reflexivity.
  - intros k' Hne. rewrite get_set by apply of_pairs_NoDup.
    destruct (String.eqb k k') eqn:E.
    + apply String.eqb_eq in E. congruence.
    + apply of_pairs_get.
Qed.

(** X21.  Without a flow state, the feedback step takes the session one
    turn back: the new [history] is the old list without its last entry
    (empty for a list of at most one entry), every other key of the session
    data keeps its value, the summary is asked for that shortened history,
    and the steps change by one example only. *)
Theorem feedback_steps_back (generate_summary : json -> result (list string))
    (d : list (string * json)) (h : list json) (steps : list step)
    (feedback : string) :
  PyDict.get d "history" = Some (JArr h) ->
  truthy (default JNull (PyDict.get d "flow_state")) = false ->
  let d' := PyDict.set (PyDict.of_pairs d) "history" (JArr (removelast h)) in
  feedback_step generate_summary (JObj d) steps feedback
  = (summary ← generate_summary (JArr (removelast h));
     Ok (JObj d',
         add_example steps (default JNull (PyDict.get d "current_step_id"))
           (DecisionExample (String.concat " " summary) feedback))) /\
  PyDict.get d' "history" = Some (JArr (removelast h)) /\
  forall k, k <> "history" -> PyDict.get d' k = PyDict.get d k.
Proof.
  intros Hhistory Hflow d'.
  destruct (set_lookup d "history" (JArr (removelast h))) as [Hset Hother].
  split; [|split; [exact Hset|exact Hother]].
  unfold feedback_step, py_get, py_get_default. rewrite Hhistory.
  cbn [mbind result_bind default].
  rewrite Hflow. cbn [mbind result_bind truthy]. unfold id.
  change (py_len (JArr h)) with (Ok (A := nat) (length h)).
  cbn [mbind result_bind]. rewrite history_step_back.
  cbn [mbind result_bind py_setitem py_getitem].
  rewrite Hset. reflexivity.
Qed.

Lemma feedback_steps_back_witness :
  feedback_step (fun _ => Ok ["asked"; "twice"]) (JObj sample_session)
    sample_steps "answer once"
  = (summary ← (fun _ : json => Ok ["asked"; "twice"])
                 (JArr (removelast two_turns));
     Ok (JObj (PyDict.set (PyDict.of_pairs sample_session) "history"
                 (JArr (removelast two_turns))),
         add_example sample_steps
           (default JNull (PyDict.get sample_session "current_step_id"))
           (DecisionExample (String.concat " " summary) "answer once"))) /\
  PyDict.get (PyDict.set (PyDict.of_pairs sample_session) "history"
                (JArr (removelast two_turns))) "history"
  = Some (JArr (removelast two_turns)) /\
  forall k, k <> "history" ->
    PyDict.get (PyDict.set (PyDict.of_pairs sample_session) "history"
                  (JArr (removelast two_turns))) k
    = PyDict.get sample_session k.
Proof.
  apply (feedback_steps_back (fun _ => Ok ["asked"; "twice"]) sample_session
           two_turns sample_steps "answer once"); reflexivity.
Defined.

(** X22.  With a flow state, the feedback step shortens [history] by its
    last entry as before, and writes the flow memory context without its
    last entry under the key "context" of the flow state; the key
    "flow_memory_context", from which it was read, keeps the whole list,
    as every other key of the flow state and of the session data keeps its
    value.  The summary is asked for the shortened flow memory context,
    not for the history. *)
Theorem feedback_with_flow (generate_summary : json -> result (list string))
    (d fs : list (string * json)) (h c : list json) (steps : list step)
    (feedback : string) :
  PyDict.get d "history" = Some (JArr h) ->
  PyDict.get d "flow_state" = Some (JObj fs) ->
  fs <> [] ->
  PyDict.get fs "flow_memory_context" = Some (JArr c) ->
  let fs' := PyDict.set (PyDict.of_pairs fs) "context" (JArr (removelast c)) in
  let d' :=
    PyDict.set
      (PyDict.of_pairs
         (PyDict.set (PyDict.of_pairs d) "history" (JArr (removelast h))))
      "flow_state" (JObj fs') in
  feedback_step generate_summary (JObj d) steps feedback
  = (summary ← generate_summary (JArr (removelast c));
     Ok (JObj d',
         add_example steps (default JNull (PyDict.get d "current_step_id"))
           (DecisionExample (String.concat " " summary) feedback))) /\
  PyDict.get d' "history" = Some (JArr (removelast h)) /\
  PyDict.get d' "flow_state" = Some (JObj fs') /\
  PyDict.get fs' "context" = Some (JArr (removelast c)) /\
  PyDict.get fs' "flow_memory_context" = Some (JArr c) /\
  (forall k, k <> "context" -> PyDict.get fs' k = PyDict.get fs k) /\
  (forall k, k <> "history" -> k <> "flow_state" ->
             PyDict.get d' k = PyDict.get d k).
Proof.
  intros Hhistory Hflow Hfs Hcontext fs' d'.
  destruct (set_lookup d "history" (JArr (removelast h))) as [Hset1 Hother1].
  destruct (set_lookup fs "context" (JArr (removelast c))) as [Hset2 Hother2].
  destruct (set_lookup
              (PyDict.set (PyDict.of_pairs d) "history" (JArr (removelast h)))
              "flow_state" (JObj fs')) as [Hset3 Hother3].
  assert (Htruthy : truthy (JObj fs) = true)
    by (destruct fs; [contradiction|reflexivity]).
  split; [|repeat split].
  - unfold feedback_step, py_get, py_get_default. rewrite Hhistory, Hflow.
    cbn [mbind result_bind default]. unfold id. rewrite Htruthy.
    rewrite Hcontext. cbn [mbind result_bind default]. unfold id.
    change (py_len (JArr h)) with (Ok (A := nat) (length h)).
    cbn [mbind result_bind]. rewrite history_step_back.
    cbn [mbind result_bind]. rewrite context_step_back.
    cbn [mbind result_bind py_setitem py_getitem].
    rewrite (Hother1 "flow_state") by discriminate. rewrite Hflow.
    cbn [mbind result_bind py_setitem]. reflexivity.
  - unfold d'. rewrite Hother3 by discriminate. exact Hset1.
  - exact Hset3.
  - exact Hset2.
  - unfold fs'. rewrite Hother2 by discriminate. exact Hcontext.
  - exact Hother2.
  - intros k Hk1 Hk2. unfold d'. rewrite Hother3 by exact Hk2.
    apply Hother1, Hk1.
Qed.

Lemma feedback_with_flow_witness :
  exists d' fs',
    feedback_step (fun _ => Ok ["asked"; "twice"]) (JObj sample_flow_session)
      sample_steps "answer once"
    = Ok (JObj d',
          add_example sample_steps (JStr "greet")
            (DecisionExample "asked twice" "answer once")) /\
    PyDict.get d' "flow_state" = Some (JObj fs') /\
    PyDict.get fs' "context" = Some (JArr (removelast two_turns)) /\
    PyDict.get fs' "flow_memory_context" = Some (JArr two_turns).
Proof.
  destruct (feedback_with_flow (fun _ => Ok ["asked"; "twice"])
              sample_flow_session [("flow_memory_context", JArr two_turns)]
              two_turns two_turns sample_steps "answer once"
              eq_refl eq_refl ltac:(discriminate) eq_refl)
    as (Hrun & _ & Hstate & Hctx & Hmem & _).
  eexists _, _. split; [exact Hrun|]. split; [exact Hstate|].
  split; [exact Hctx|exact Hmem].
Defined.

(** X23.  The example the feedback step records goes to the first step
    whose id is the current step id, at the end of its examples (which
    start empty when the step had none); every other step, also a later
    one of the same id, stays as it is, and so do all steps when no step
    has that id or the current step id is not a string (for instance
    missing). *)
Theorem example_goes_to_first_step (steps : list step) (example : decision_example) :
  (forall before s after id,
     steps = (before ++ s :: after)%list ->
     step_id s = id ->
     Forall (fun t => step_id t <> id) before ->
     add_example steps (JStr id) example
     = (before
        ++ Step id (Some (default [] (examples s) ++ [example])%list)
        :: after)%list) /\
  (forall id, Forall (fun t => step_id t <> id) steps ->
              add_example steps (JStr id) example = steps) /\
  (forall v, (forall id, v <> JStr id) -> add_example steps v example = steps) /\
  (forall v, map step_id (add_example steps v example) = map step_id steps).
Proof.
  split; [|split; [|split]].
  - intros before s after id -> Hid Hbefore.
    induction Hbefore as [|t before Ht _ IH]; simpl.
    + rewrite Hid, String.eqb_refl. reflexivity.
    + apply String.eqb_neq in Ht. rewrite String.eqb_sym in Ht.
      rewrite Ht, IH. reflexivity.
  - intros id Hnone. induction Hnone as [|t steps Ht _ IH]; simpl; [reflexivity|].
    apply String.eqb_neq in Ht. rewrite String.eqb_sym in Ht.
    rewrite Ht, IH. reflexivity.
  - intros v Hv. induction steps as [|t steps IH]; simpl; [reflexivity|].
    destruct (json_is_str v (step_id t)) eqn:E.
    + apply json_is_str_true in E. destruct (Hv _ E).
    + rewrite IH. reflexivity.
  - intros v. induction steps as [|t steps IH]; simpl; [reflexivity|].
    destruct (json_is_str v (step_id t)); simpl; [reflexivity|].
    rewrite IH. reflexivity.
Qed.

Lemma example_goes_to_first_step_witness :
  add_example sample_steps (JStr "greet") (DecisionExample "asked twice" "answer once")
  = ([]
     ++ Step "greet"
          (Some (default [] (examples (Step "greet" None))
                 ++ [DecisionExample "asked twice" "answer once"])%list)
     :: [Step "order" (Some []); Step "greet" (Some [])])%list.
Proof.
  destruct (example_goes_to_first_step sample_steps
              (DecisionExample "asked twice" "answer once")) as [H _].
  apply (H [] (Step "greet" None) [Step "order" (Some []); Step "greet" (Some [])]
           "greet"); [reflexivity|reflexivity|constructor].
Defined.
